(** * llm-analyser: a shallow embedding of [main.py]

    The program walks a directory for [.docx] files, runs one worker
    ([process_file]) per file on a pool and writes one Markdown report per
    collected result ([DocxAnalyzer.analyze_directory]).

    Conventions of the embedding:
    - a Python [str] is a [string]; a character is a code point below 256;
    - a Python [dict] with string keys is a [gmap string _]; a missing key
      is a missing binding, never a stored null;
    - code that can raise or that talks to the outside world lives in the
      monad [M]: a log of the external calls performed so far together with
      either a value or the exception that ended the computation; an
      exception is an instance of [Exception], a [KeyboardInterrupt] or
      another [BaseException], and an [except] clause catches its own
      classes only;
    - the collaborators the program does not implement (the ollama client,
      python-docx, the directory listing, the file system behind [mkdir]
      and [open], the clock, [os.cpu_count], the order in which futures
      complete, the version of [pathlib]) are fields of an environment
      record; each of their calls returns or raises as the collaborator
      decides. *)

From Stdlib Require Import Ascii String.
From stdpp Require Import base option list gmap strings.

(** ** Python string primitives *)

Module Py.

Definition chr (n : nat) : string := String (ascii_of_nat n) "".

(** Line feed and the double quote, which the templates of the program
    contain. *)
Definition NL : string := chr 10.
Definition DQ : string := chr 34.

Definition is_empty (s : string) : bool :=
  match s with "" => true | String _ _ => false end.

(** Truth value of a [str]: non-empty. *)
Definition truthy (s : string) : bool := negb (is_empty s).

(** [str.isspace] on one code point below 256: TAB..CR, FS..US, SPACE,
    NEL and NBSP. *)
Definition isspace (c : ascii) : bool :=
  let n := nat_of_ascii c in
  ((9 <=? n) && (n <=? 13)) || ((28 <=? n) && (n <=? 32))
  || (n =? 133) || (n =? 160).

Fixpoint lstrip (s : string) : string :=
  match s with
  | "" => ""
  | String c s' => if isspace c then lstrip s' else s
  end.

Fixpoint rstrip (s : string) : string :=
  match s with
  | "" => ""
  | String c s' =>
      let r := rstrip s' in
      if isspace c && is_empty r then "" else String c r
  end.

(** [s.strip()] *)
Definition strip (s : string) : string := rstrip (lstrip s).

(** [sep.join(l)] *)
Fixpoint join (sep : string) (l : list string) : string :=
  match l with
  | [] => ""
  | [x] => x
  | x :: l' => x +:+ sep +:+ join sep l'
  end.

Definition starts_word (s : string) : bool :=
  match s with "" => false | String c _ => negb (isspace c) end.

Definition push (c : ascii) (l : list string) : list string :=
  match l with
  | [] => [String c ""]
  | t :: l' => String c t :: l'
  end.

(** [s.split()]: the maximal runs of non-whitespace characters. *)
Fixpoint split (s : string) : list string :=
  match s with
  | "" => []
  | String c s' =>
      if isspace c then split s'
      else if starts_word s' then push c (split s')
      else String c "" :: split s'
  end.

(** [s.split(c)] for a one-character separator. *)
Fixpoint split_on (c : ascii) (s : string) : list string :=
  match s with
  | "" => [""]
  | String a s' =>
      if decide (a = c) then "" :: split_on c s'
      else push a (split_on c s')
  end.

(** [s[:n]] *)
Fixpoint slice_to (n : nat) (s : string) : string :=
  match n, s with
  | S n', String c s' => String c (slice_to n' s')
  | _, _ => ""
  end.

(** [s.startswith(p)] and [s.endswith(p)] *)
Fixpoint startswith (s p : string) {struct p} : bool :=
  match p, s with
  | "", _ => true
  | String a p', String b s' => if decide (a = b) then startswith s' p' else false
  | String _ _, "" => false
  end.

Fixpoint endswith (s p : string) : bool :=
  match s with
  | "" => is_empty p
  | String _ s' => if decide (s = p) then true else endswith s' p
  end.

(** [s.rfind(c)], with [None] for Python's [-1]. *)
Fixpoint rfind (c : ascii) (s : string) : option nat :=
  match s with
  | "" => None
  | String a s' =>
      match rfind c s' with
      | Some i => Some (S i)
      | None => if decide (a = c) then Some 0 else None
      end
  end.

(** [s.lower()] on code points below 256: A..Z and the accented capitals
    U+00C0..U+00DE (without the multiplication sign U+00D7) move up by 32. *)
Definition lower_char (c : ascii) : ascii :=
  let n := nat_of_ascii c in
  if ((65 <=? n) && (n <=? 90))
     || ((192 <=? n) && (n <=? 222) && negb (n =? 215))
  then ascii_of_nat (n + 32) else c.

Fixpoint lower (s : string) : string :=
  match s with
  | "" => ""
  | String c s' => String (lower_char c) (lower s')
  end.

(** The character class [[a-zA-Z0-9]]. *)
Definition is_alnum (c : ascii) : bool :=
  let n := nat_of_ascii c in
  ((48 <=? n) && (n <=? 57)) || ((65 <=? n) && (n <=? 90))
  || ((97 <=? n) && (n <=? 122)).

(** [re.sub(r'[^a-zA-Z0-9]+', '_', s)]: every maximal run of characters
    outside the class becomes one underscore; [in_run] says that the
    previous character was already replaced. *)
Fixpoint sub_non_alnum (in_run : bool) (s : string) : string :=
  match s with
  | "" => ""
  | String c s' =>
      if is_alnum c then String c (sub_non_alnum false s')
      else if in_run then sub_non_alnum true s'
      else String "_" (sub_non_alnum true s')
  end.

(** *** Decimal rendering of a non-negative [int] *)

Definition digit_char (d : nat) : ascii := ascii_of_nat (48 + d).

Definition digit_val (c : ascii) : option nat :=
  let n := nat_of_ascii c in
  if (48 <=? n) && (n <=? 57) then Some (n - 48) else None.

(** Digits of [n], most significant first, pushed in front of [acc]. *)
Fixpoint digits_go (fuel n : nat) (acc : list nat) : list nat :=
  match fuel with
  | 0 => acc
  | S fuel' =>
      if n <? 10 then n :: acc
      else digits_go fuel' (n / 10) (n mod 10 :: acc)
  end.

Definition digits (n : nat) : list nat := digits_go (S n) n [].

Fixpoint string_of_digits (ds : list nat) : string :=
  match ds with
  | [] => ""
  | d :: ds' => String (digit_char d) (string_of_digits ds')
  end.

(** [str(n)] *)
Definition str_int (n : nat) : string := string_of_digits (digits n).

Fixpoint zeros (k : nat) : string :=
  match k with 0 => "" | S k' => String "0" (zeros k') end.

(** [f"{n:02d}"]: a minimum width of two, filled with zeros on the left;
    longer renderings are left as they are. *)
Definition fmt_02d (n : nat) : string :=
  let s := str_int n in zeros (2 - String.length s) +:+ s.

(** Reading a decimal prefix back: the number written by the leading digits
    of [s]. *)
Fixpoint read_int_go (s : string) (a : nat) : nat :=
  match s with
  | "" => a
  | String c s' =>
      match digit_val c with
      | Some d => read_int_go s' (10 * a + d)
      | None => a
      end
  end.

Definition read_int (s : string) : nat := read_int_go s 0.

End Py.

(** ** [pathlib] on POSIX paths *)

Module Path.

(** The components of a path: empty components and ["."] are dropped by
    [PurePosixPath]. *)
Definition parts (p : string) : list string :=
  filter (λ x, x ≠ "" ∧ x ≠ ".") (Py.split_on "/" p).

(** [Path(p).name] *)
Definition name (p : string) : string := List.last (parts p) "".

(** A name part made of dots only (the empty one included). *)
Fixpoint only_dots (s : string) : bool :=
  match s with
  | "" => true
  | String c s' => if decide (c = "."%char) then only_dots s' else false
  end.

(** [Path(p).stem]: the name without its last suffix. Up to Python 3.13 a
    leading or a trailing dot does not start a suffix ([0 < i < len - 1] for
    the last dot [i]); from Python 3.14 on ([splitext] is [true]) the stem
    is [os.path.splitext(name)[0]]: the last dot starts a suffix unless
    only dots stand in front of it. *)
Definition stem (splitext : bool) (p : string) : string :=
  let n := name p in
  match Py.rfind "." n with
  | Some i =>
      if splitext then
        if only_dots (Py.slice_to i n) then n else Py.slice_to i n
      else
        if (0 <? i) && (i <? String.length n - 1) then Py.slice_to i n else n
  | None => n
  end.

(** The root of a path: exactly two leading slashes are kept, any other
    number of them is one slash. *)
Definition root (p : string) : string :=
  if Py.startswith p "//" && negb (Py.startswith p "///") then "//"
  else if Py.startswith p "/" then "/"
  else "".

(** [str(Path(p))]: a [Path] object is represented by its rendering. *)
Definition of_str (p : string) : string :=
  let body := Py.join "/" (parts p) in
  if Py.is_empty (root p) && Py.is_empty body then "." else root p +:+ body.

(** [d / f] for a [Path] [d] and a file name [f] without slashes. *)
Definition joinpath (d f : string) : string :=
  if decide (d = ".") then f
  else if Py.endswith d "/" then d +:+ f
  else d +:+ "/" +:+ f.

End Path.

(** ** Exceptions, external calls and the monad of the program *)

(** Where the class of an exception stands in the hierarchy, as far as the
    [except] clauses of the program tell classes apart: under [Exception],
    under [KeyboardInterrupt], or elsewhere under [BaseException]
    ([SystemExit], [GeneratorExit], ...). *)
Inductive exn_kind :=
  | UnderException
  | UnderKeyboardInterrupt
  | UnderBaseException.

(** An exception object: its place in the hierarchy, its class name and
    [str(e)]. *)
Record exn := MkExn {
  exn_kind_of : exn_kind;
  exn_class : string;
  exn_msg : string;
}.

(** An exception of a class derived from [Exception]. *)
Definition Exn (class msg : string) : exn := MkExn UnderException class msg.

(** [isinstance(e, Exception)] and [isinstance(e, KeyboardInterrupt)] *)
Definition is_Exception (e : exn) : bool :=
  match exn_kind_of e with UnderException => true | _ => false end.

Definition is_KeyboardInterrupt (e : exn) : bool :=
  match exn_kind_of e with UnderKeyboardInterrupt => true | _ => false end.

(** The calls that leave the program. *)
Inductive event :=
  | EClient (worker : string)            (* ollama.Client() in the worker of a file *)
  | EDocument (path : string)            (* docx.Document(path) *)
  | EGenerate (model prompt : string)    (* client.generate(model=, prompt=) *)
  | EMkdir (path : string)               (* Path.mkdir(exist_ok=True), done *)
  | EWrite (path content : string)       (* open(path, 'w').write(content), done *)
  | EPrint (line : string).              (* print(line) *)

Inductive outcome (A : Type) :=
  | Ok (a : A)
  | Raise (e : exn).
Arguments Ok {A} a.
Arguments Raise {A} e.

Definition M (A : Type) : Type := list event * outcome A.

Global Instance M_ret : MRet M := λ A a, ([], Ok a).

Global Instance M_bind : MBind M := λ A B k m,
  match m with
  | (tr, Ok a) => let '(tr', o) := k a in (tr ++ tr', o)
  | (tr, Raise e) => (tr, Raise e)
  end.

Definition raise {A} (e : exn) : M A := ([], Raise e).

(** An external call: it is logged, then it returns or raises as the
    collaborator decides. *)
Definition call {A} (ev : event) (o : outcome A) : M A := ([ev], o).

(** [try: body / except Exception as e: handler e]: an exception outside
    [Exception] is not caught. *)
Definition try_except {A} (body : M A) (handler : exn → M A) : M A :=
  match body with
  | (tr, Ok a) => (tr, Ok a)
  | (tr, Raise e) =>
      if is_Exception e then let '(tr', o) := handler e in (tr ++ tr', o)
      else (tr, Raise e)
  end.

(** [try: body / except KeyboardInterrupt: on_interrupt /
     except Exception as e: handler e] *)
Definition try_except_interrupt {A} (body : M A) (on_interrupt : M A)
    (handler : exn → M A) : M A :=
  match body with
  | (tr, Ok a) => (tr, Ok a)
  | (tr, Raise e) =>
      if is_KeyboardInterrupt e then
        let '(tr', o) := on_interrupt in (tr ++ tr', o)
      else if is_Exception e then
        let '(tr', o) := handler e in (tr ++ tr', o)
      else (tr, Raise e)
  end.

(** [for x in l: acc = step acc x] with a body that may raise. *)
Fixpoint for_each {A S} (step : S → A → M S) (l : list A) (acc : S) : M S :=
  match l with
  | [] => mret acc
  | x :: l' => acc' ← step acc x; for_each step l' acc'
  end.

Definition trace {A} (m : M A) : list event := m.1.
Definition result {A} (m : M A) : outcome A := m.2.

(** ** Values stored in the dictionaries of the program *)

(** Values of the [content] dictionary. *)
Inductive cval :=
  | CStr (s : string)
  | CInt (n : nat).

(** Values of a result record: text, or the [content] dictionary. *)
Inductive rval :=
  | RStr (s : string)
  | RContent (c : gmap string cval).

Definition KeyError (k : string) : exn := Exn "KeyError" ("'" +:+ k +:+ "'").

(** [d[k]] *)
Definition getitem {V} (d : gmap string V) (k : string) : M V :=
  match d !! k with
  | Some v => mret v
  | None => raise (KeyError k)
  end.

(** Truth value of a content value. *)
Definition cval_truthy (v : cval) : bool :=
  match v with
  | CStr s => Py.truthy s
  | CInt n => negb (n =? 0)
  end.

(** A content value inside an f-string. *)
Definition cval_format (v : cval) : string :=
  match v with
  | CStr s => s
  | CInt n => Py.str_int n
  end.

(** [v[:n]] *)
Definition cval_slice_to (n : nat) (v : cval) : M string :=
  match v with
  | CStr s => mret (Py.slice_to n s)
  | CInt _ => raise (Exn "TypeError" "'int' object is not subscriptable")
  end.

(** A record value used where the program needs text (as an operand of
    [+], as the argument of [Path], inside an f-string). [process_file]
    stores text under every key but ['content'], so the other case is
    outside the data of the program; the model ends it with [TypeError]. *)
Definition rval_str (v : rval) : M string :=
  match v with
  | RStr s => mret s
  | RContent _ => raise (Exn "TypeError" "expected str, not dict")
  end.

(** [v.get(k, default)] *)
Definition rval_get (v : rval) (k : string) (default : cval) : M cval :=
  match v with
  | RContent c => mret (from_option id default (c !! k))
  | RStr _ => raise (Exn "AttributeError" "'str' object has no attribute 'get'")
  end.

(** ** The environment *)

(** What python-docx hands back for a document: the [text] of every
    paragraph, and for every table its rows of cell [text]s. *)
Record Document := {
  doc_paragraphs : list string;
  doc_tables : list (list (list string));
}.

Record Env := {
  (** [ollama.Client()], constructed anew by the worker of each file *)
  ollama_Client : string → outcome unit;
  (** [docx.Document(path)] *)
  docx_Document : string → outcome Document;
  (** [client.generate(model=, prompt=)['response']] *)
  client_generate : string → string → outcome string;
  (** every entry below a directory, as [rglob] walks them *)
  rglob_all : string → list string;
  (** [os.cpu_count()] *)
  os_cpu_count : option nat;
  (** [os.path.exists] *)
  os_path_exists : string → bool;
  (** [path.mkdir(exist_ok=True)]: it raises when the parent is missing or
      when the path is a regular file *)
  path_mkdir : string → outcome unit;
  (** [with open(path, 'w', encoding='utf-8') as f: f.write(content)]: it
      raises when the file cannot be opened or written, as for a name that
      is too long *)
  open_write : string → string → outcome unit;
  (** the interpreter is Python 3.14 or later, whose [pathlib] takes the
      stem from [os.path.splitext] *)
  pathlib_splitext : bool;
  (** [time.strftime('%Y-%m-%d %H:%M:%S')] when the report with the given
      number is rendered *)
  time_strftime : nat → string;
  (** [Path(__file__).parent] *)
  script_root : string;
  (** [as_completed(futures)]: the submitted tasks in the order in which
      they finish; every task is yielded once *)
  as_completed : list string → list string;
  as_completed_perm : ∀ l, as_completed l ≡ₚ l;
}.

(** ** [process_file] *)

(** [[f x for x in l if f x]] with [f = strip]. *)
Definition stripped_non_empty (l : list string) : list string :=
  Py.strip <$> filter (λ s, Py.truthy (Py.strip s)) l.

Definition table_text (table : list (list string)) : list string :=
  (λ row, Py.join " | " (stripped_non_empty row))
    <$> filter (λ row, stripped_non_empty row ≠ []) table.

Definition tables_content (tables : list (list (list string))) : list string :=
  (λ t, Py.join Py.NL (table_text t)) <$> filter (λ t, table_text t ≠ []) tables.

(** The [content] dictionary built from a parsed document. *)
Definition content_of (doc : Document) : gmap string cval :=
  let paragraphs := stripped_non_empty (doc_paragraphs doc) in
  let tables := tables_content (doc_tables doc) in
  <["paragraphs" := CStr (Py.join (Py.NL +:+ Py.NL) paragraphs)]>
  (<["tables" := CStr (if decide (tables = []) then ""
                       else Py.join (Py.NL +:+ Py.NL) tables)]>
  (<["word_count" := CInt (length (Py.split (Py.join " " paragraphs)))]>
  (<["paragraph_count" := CInt (length paragraphs)]> ∅))).

(** The essay prompt, an f-string over the file path and [content]. *)
Definition prompt (file_path : string) (content : gmap string cval) : M string :=
  word_count ← getitem content "word_count";
  paragraph_count ← getitem content "paragraph_count";
  paragraphs ← getitem content "paragraphs";
  preview ← cval_slice_to 500 paragraphs;
  tables ← getitem content "tables";
  mret (Py.join Py.NL [
    "";
    "Please write a comprehensive analytical essay about the document "
      +:+ Py.DQ +:+ Path.name file_path +:+ Py.DQ
      +:+ " with the following structure, formatted in Markdown:";
    "";
    "## Document Overview";
    "Briefly describe the document's purpose and content.";
    "";
    "## Key Themes and Topics";
    "List and describe key themes and topics identified.";
    "";
    "## Writing Style and Structure Analysis";
    "Analyse the document's writing style and structure.";
    "";
    "## Main Arguments or Points Presented";
    "Summarise the core arguments or points.";
    "";
    "## Critical Assessment";
    "Provide a critical assessment.";
    "";
    "## Conclusions and Significance";
    "Summarise the document's significance and final thoughts.";
    "";
    "**Document Statistics:**";
    "- Word count: " +:+ cval_format word_count;
    "- Paragraph count: " +:+ cval_format paragraph_count;
    "- File path: " +:+ file_path;
    "";
    "**Document Content Preview:**";
    preview +:+ "...";
    "";
    (if cval_truthy tables
     then "**Tables/Structured Data:**" +:+ Py.NL +:+ cval_format tables
     else "");
    "            "]).

(** The record returned when the worker succeeded: no ['error'] key. *)
Definition success_record (file_path_str : string) (content : gmap string cval)
    (essay_text : string) : gmap string rval :=
  <["file_path" := RStr file_path_str]>
  (<["content" := RContent content]>
  (<["essay" := RStr essay_text]> ∅)).

(** The record returned by the [except] branch. *)
Definition error_record (file_path_str : string) (e : exn) : gmap string rval :=
  <["file_path" := RStr file_path_str]>
  (<["error" := RStr (exn_msg e)]>
  (<["content" := RContent ∅]>
  (<["essay" := RStr ""]> ∅))).

(** The [try] block of [process_file]. *)
Definition process_file_body (env : Env) (file_path_str model_name : string)
    : M (gmap string rval) :=
  let file_path := Path.of_str file_path_str in
  call (EClient file_path_str) (ollama_Client env file_path_str);;
  doc ← call (EDocument file_path) (docx_Document env file_path);
  let content := content_of doc in
  paragraphs ← getitem content "paragraphs";
  essay_text ←
    (if negb (cval_truthy paragraphs)
     then mret ("No readable content found in " +:+ Path.name file_path)
     else p ← prompt file_path content;
          call (EGenerate model_name p) (client_generate env model_name p));
  mret (success_record file_path_str content essay_text).

Definition process_file (env : Env) (file_path_str model_name : string)
    : M (gmap string rval) :=
  try_except (process_file_body env file_path_str model_name)
             (λ e, mret (error_record file_path_str e)).

(** ** [DocxAnalyzer] *)

Record DocxAnalyzer := {
  model_name : string;
  file_counter : nat;
}.

(** [DocxAnalyzer.__init__] *)
Definition DocxAnalyzer_init (model_name : string) : DocxAnalyzer :=
  {| model_name := model_name; file_counter := 0 |}.

Definition find_docx_files (env : Env) (directory : string) : list string :=
  filter (λ p, ¬ Py.startswith (Path.name p) "~$")
    (filter (λ p, Py.endswith (Path.name p) ".docx")
       (rglob_all env (Path.of_str directory))).

Definition print (line : string) : M unit := call (EPrint line) (Ok ()).

(** [path.mkdir(exist_ok=True)]; the log keeps the directories that were
    made (or were there already). *)
Definition mkdir (env : Env) (path : string) : M unit :=
  match path_mkdir env path with
  | Ok _ => call (EMkdir path) (Ok ())
  | Raise e => raise e
  end.

(** Lines 148 and 149; the log keeps the files that were written. *)
Definition write_file (env : Env) (path content : string) : M unit :=
  match open_write env path content with
  | Ok _ => call (EWrite path content) (Ok ())
  | Raise e => raise e
  end.

(** [k in d] *)
Definition contains {V} (d : gmap string V) (k : string) : bool :=
  match d !! k with Some _ => true | None => false end.

(** Lines 113 to 115: the kind of pool ([true] for processes) and its
    size. Comparing [None] with [4] raises. *)
Definition pool_setup (cpu_count : option nat) : M (bool * nat) :=
  use_multiprocessing ←
    match cpu_count with
    | Some n => mret (4 <=? n)
    | None => raise (Exn "TypeError"
        "'>=' not supported between instances of 'NoneType' and 'int'")
    end;
  let max_workers :=
    (match cpu_count with
     | Some n => if n =? 0 then 2 else n
     | None => 2
     end) `min` 8 in
  mret (use_multiprocessing, max_workers).

(** The header of a report. *)
Definition metadata (name date word_count paragraph_count : string) : string :=
  "# Document Analysis for " +:+ name +:+ Py.NL +:+ Py.NL
  +:+ "**Analysis Date:** " +:+ date +:+ Py.NL
  +:+ "**Word Count:** " +:+ word_count +:+ Py.NL
  +:+ "**Paragraph Count:** " +:+ paragraph_count +:+ Py.NL +:+ Py.NL
  +:+ "---" +:+ Py.NL +:+ Py.NL.

(** The line that closes a report and names the model. *)
Definition footer (model_name : string) : string :=
  Py.NL +:+ Py.NL +:+ "---" +:+ Py.NL +:+ Py.NL
  +:+ "*Generated using Ollama model: " +:+ model_name +:+ "*".

(** The report of a failed file. *)
Definition error_block (err file_path : string) : string :=
  "# Error: " +:+ err +:+ Py.NL +:+ Py.NL +:+ "File: " +:+ file_path +:+ Py.NL.

(** The report written for one result (lines 136 to 146). *)
Definition markdown_content (env : Env) (self : DocxAnalyzer)
    (result : gmap string rval) (file_path : string) : M string :=
  if contains result "error" then
    err ← getitem result "error" ≫= rval_str;
    mret (error_block err file_path)
  else
    content ← getitem result "content";
    word_count ← rval_get content "word_count" (CStr "N/A");
    content ← getitem result "content";
    paragraph_count ← rval_get content "paragraph_count" (CStr "N/A");
    essay ← getitem result "essay" ≫= rval_str;
    mret (metadata (Path.name file_path) (time_strftime env (file_counter self))
            (cval_format word_count) (cval_format paragraph_count)
          +:+ essay +:+ footer (model_name self)).

Definition markdown_filename (env : Env) (counter : nat) (file_path : string)
    : string :=
  Py.fmt_02d counter +:+ "_" +:+ Path.stem (pathlib_splitext env) file_path
  +:+ "_analysis.md".

(** One round of the collecting loop: the body of
    [for future in as_completed(futures)], for the task of [task]. The
    calls of a worker are logged where its result is collected;
    [future.result()] raises again what the worker raised. *)
Definition collect (env : Env) (output_dir : string) (self : DocxAnalyzer)
    (task : string) : M DocxAnalyzer :=
  result ← process_file env task (model_name self);
  let self := {| model_name := model_name self;
                 file_counter := file_counter self + 1 |} in
  file_path_str ← getitem result "file_path" ≫= rval_str;
  let file_path := Path.of_str file_path_str in
  let markdown_path :=
    Path.joinpath output_dir
      (markdown_filename env (file_counter self) file_path) in
  content ← markdown_content env self result file_path;
  write_file env markdown_path content;;
  print ("Processed " +:+ Path.name file_path);;
  mret self.

Definition folder_slug (directory : string) : string :=
  Py.sub_non_alnum false (Py.lower (Path.name directory)).

(** The directory of the reports: the one asked for, or one next to the
    script, named after the input directory. *)
Definition resolved_output (env : Env) (directory : string)
    (output_dir : option string) : string :=
  match output_dir with
  | None => Path.joinpath (script_root env) (folder_slug directory +:+ "_essays")
  | Some d => Path.of_str d
  end.

(** [analyze_directory]; it returns the analyzer with its counter as the
    run leaves it. *)
Definition analyze_directory (env : Env) (self : DocxAnalyzer)
    (directory : string) (output_dir : option string) : M DocxAnalyzer :=
  let docx_files := find_docx_files env directory in
  if decide (docx_files = []) then
    print ("No .docx files found in '" +:+ directory +:+ "'");;
    mret self
  else
    let output_dir := resolved_output env directory output_dir in
    mkdir env output_dir;;
    '(use_multiprocessing, max_workers) ← pool_setup (os_cpu_count env);
    print ("Using "
           +:+ (if use_multiprocessing : bool then "multiprocessing" else "threading")
           +:+ " with " +:+ Py.str_int max_workers +:+ " workers...");;
    self ← for_each (collect env output_dir) (as_completed env docx_files) self;
    print ("✓ Analysis complete! Markdown essays saved to: " +:+ output_dir);;
    mret self.

(** [main] after argument parsing; the value is the exit status:
    [sys.exit(1)] gives 1 and the end of [main] gives 0. An exception that
    neither clause catches leaves [main]. *)
Definition main (env : Env) (directory : string) (output : option string)
    (model : string) : M nat :=
  if negb (os_path_exists env directory) then
    print ("Error: Directory '" +:+ directory +:+ "' does not exist");;
    mret 1
  else
    let analyzer := DocxAnalyzer_init model in
    try_except_interrupt
      (analyze_directory env analyzer directory output;; mret 0)
      (print (Py.NL +:+ "Analysis interrupted by user");; mret 0)
      (λ e, print ("Error during analysis: " +:+ exn_msg e);; mret 1).

(** The files written by a run, in the order of writing. *)
Definition written (tr : list event) : list (string * string) :=
  omap (λ ev, match ev with EWrite p c => Some (p, c) | _ => None end) tr.

(** The generation calls of a run. *)
Definition generate_calls (tr : list event) : list (string * string) :=
  omap (λ ev, match ev with EGenerate m p => Some (m, p) | _ => None end) tr.

(** The directory of reports after a run that started with [fs]. *)
Definition files_after (fs : gmap string string) (tr : list event)
    : gmap string string :=
  foldl (λ fs w, <[w.1 := w.2]> fs) fs (written tr).

(** ** Notions used by the statements *)

(** The text of the retained paragraphs, as stored under ['paragraphs']. *)
Definition paragraphs_text (doc : Document) : string :=
  Py.join (Py.NL +:+ Py.NL) (stripped_non_empty (doc_paragraphs doc)).

(** The essay of a file without readable text. *)
Definition placeholder (file_path_str : string) : string :=
  "No readable content found in " +:+ Path.name (Path.of_str file_path_str).

(** The prompt sent for a parsed document. *)
Definition prompt_text (file_path : string) (doc : Document) : string :=
  match prompt file_path (content_of doc) with
  | (_, Ok s) => s
  | (_, Raise _) => ""
  end.

(** A string of whitespace only (the empty string included). *)
Fixpoint whitespace_only (s : string) : bool :=
  match s with
  | "" => true
  | String c s' => Py.isspace c && whitespace_only s'
  end.

(** The retained paragraphs in the words of the specification: the
    paragraphs that are neither empty nor whitespace only, stripped. *)
Definition retained_paragraphs (doc : Document) : list string :=
  Py.strip <$> filter (λ p, ¬ whitespace_only p) (doc_paragraphs doc).

(** The whitespace-separated tokens of several texts taken together. *)
Definition tokens (texts : list string) : list string :=
  texts ≫= Py.split.

(** The number written by a list of digits, continuing from [a]. *)
Definition value_from (a : nat) (ds : list nat) : nat :=
  foldl (λ a d, 10 * a + d) a ds.

(** The part of a report file name in front of its first underscore. *)
Definition counter_prefix (filename : string) : string :=
  List.hd "" (Py.split_on "_" filename).

(** A step of the worker raises [e]: constructing the client, or (the
    client being there) opening the document, or (the document having
    text) the generation call. *)
Definition step_fails (env : Env) (p model : string) (e : exn) : Prop :=
  ollama_Client env p = Raise e
  ∨ (ollama_Client env p = Ok () ∧ docx_Document env (Path.of_str p) = Raise e)
  ∨ (∃ doc, ollama_Client env p = Ok ()
       ∧ docx_Document env (Path.of_str p) = Ok doc
       ∧ paragraphs_text doc ≠ ""
       ∧ client_generate env model (prompt_text (Path.of_str p) doc) = Raise e).

(** The invariant of result records as the specification words it with
    "holds text" read as "is a non-empty string". *)
Definition essay_nonempty_invariant (r : gmap string rval) : Prop :=
  (is_Some (r !! "error") ∧ r !! "essay" = Some (RStr ""))
  ∨ (r !! "error" = None ∧ ∃ s, r !! "essay" = Some (RStr s) ∧ s ≠ "").

(** The five ways through the [try] block. *)
Inductive worker_path (env : Env) (p model : string)
    : M (gmap string rval) → Prop :=
  | path_client_raises e :
      ollama_Client env p = Raise e →
      worker_path env p model ([EClient p], Raise e)
  | path_document_raises e :
      ollama_Client env p = Ok () →
      docx_Document env (Path.of_str p) = Raise e →
      worker_path env p model ([EClient p; EDocument (Path.of_str p)], Raise e)
  | path_blank doc :
      ollama_Client env p = Ok () →
      docx_Document env (Path.of_str p) = Ok doc →
      paragraphs_text doc = "" →
      worker_path env p model ([EClient p; EDocument (Path.of_str p)],
                   Ok (success_record p (content_of doc) (placeholder p)))
  | path_generate_raises doc e :
      ollama_Client env p = Ok () →
      docx_Document env (Path.of_str p) = Ok doc →
      paragraphs_text doc ≠ "" →
      client_generate env model (prompt_text (Path.of_str p) doc) = Raise e →
      worker_path env p model ([EClient p; EDocument (Path.of_str p);
                    EGenerate model (prompt_text (Path.of_str p) doc)], Raise e)
  | path_generated doc essay :
      ollama_Client env p = Ok () →
      docx_Document env (Path.of_str p) = Ok doc →
      paragraphs_text doc ≠ "" →
      client_generate env model (prompt_text (Path.of_str p) doc) = Ok essay →
      worker_path env p model ([EClient p; EDocument (Path.of_str p);
                    EGenerate model (prompt_text (Path.of_str p) doc)],
                   Ok (success_record p (content_of doc) essay)).

(** ** Sample environments *)

Definition sample_env (client : outcome unit) (doc : outcome Document)
    (reply : outcome string) (files : list string) (cpu : option nat) : Env := {|
  ollama_Client := λ _, client;
  docx_Document := λ _, doc;
  client_generate := λ _ _, reply;
  rglob_all := λ _, files;
  os_cpu_count := cpu;
  os_path_exists := λ _, true;
  path_mkdir := λ _, Ok ();
  open_write := λ _ _, Ok ();
  pathlib_splitext := false;
  time_strftime := λ _, "2025-01-31 12:00:00";
  script_root := "/opt/llm-analyser";
  as_completed := reverse;
  as_completed_perm := reverse_Permutation;
|}.

(** An environment with another file system and another [pathlib]. *)
Definition with_file_system (env : Env) (mk : string → outcome unit)
    (wr : string → string → outcome unit) (splitext : bool) : Env := {|
  ollama_Client := ollama_Client env;
  docx_Document := docx_Document env;
  client_generate := client_generate env;
  rglob_all := rglob_all env;
  os_cpu_count := os_cpu_count env;
  os_path_exists := os_path_exists env;
  path_mkdir := mk;
  open_write := wr;
  pathlib_splitext := splitext;
  time_strftime := time_strftime env;
  script_root := script_root env;
  as_completed := as_completed env;
  as_completed_perm := as_completed_perm env;
|}.

(** Ctrl-C. *)
Definition interrupt : exn := MkExn UnderKeyboardInterrupt "KeyboardInterrupt" "".

(** [mkdir] under a parent that does not exist. *)
Definition no_parent : exn :=
  Exn "FileNotFoundError" "[Errno 2] No such file or directory: 'nope/out'".

Definition letter : Document :=
  {| doc_paragraphs := ["Dear  Sir,"; "   "; " thank you. "];
     doc_tables := [[["a"; " "; "b"]; [""]]; []] |}.

Definition blank : Document :=
  {| doc_paragraphs := [""; "  "]; doc_tables := [] |}.

Definition boom : exn := Exn "ConnectionError" "connection refused".

Definition bad_zip : exn := Exn "PackageNotFoundError" "Package not found at 'in/a.docx'".

(** One hundred input files [in/f0.docx] .. [in/f99.docx]. *)
Definition hundred_files : list string :=
  (λ i, "in/f" +:+ Py.str_int i +:+ ".docx") <$> seq 0 100.

(** ** Notions used by the further properties *)

(** The lines printed by a run, in order. *)
Definition printed (tr : list event) : list string :=
  omap (λ ev, match ev with EPrint line => Some line | _ => None end) tr.

(** The directories made by a run. *)
Definition made_dirs (tr : list event) : list string :=
  omap (λ ev, match ev with EMkdir path => Some path | _ => None end) tr.

(** The characters of a string. *)
Fixpoint chars (s : string) : list ascii :=
  match s with
  | "" => []
  | String c s' => c :: chars s'
  end.

(** A character of a slug: a digit, a lower-case letter or the
    underscore. *)
Definition slug_char (c : ascii) : bool :=
  let n := nat_of_ascii c in
  ((48 <=? n) && (n <=? 57)) || ((97 <=? n) && (n <=? 122)) || (n =? 95).

(** A paragraph or a cell without readable text. *)
Definition blank_text (s : string) : Prop := whitespace_only s = true.

(** A directory in which [in/bad.docx] cannot be parsed and the service
    is down for the model ["mistral"]; every other file is the letter. *)
Definition mixed_env : Env := {|
  ollama_Client := λ _, Ok ();
  docx_Document := λ p,
    if decide (p = "in/bad.docx") then Raise bad_zip else Ok letter;
  client_generate := λ model _,
    if decide (model = "mistral") then Raise boom else Ok "An essay.";
  rglob_all := λ _, ["in/a.docx"; "in/bad.docx"];
  os_cpu_count := Some 8;
  os_path_exists := λ _, true;
  path_mkdir := λ _, Ok ();
  open_write := λ _ _, Ok ();
  pathlib_splitext := false;
  time_strftime := λ _, "2025-01-31 12:00:00";
  script_root := "/opt/llm-analyser";
  as_completed := λ l, l;
  as_completed_perm := λ l, reflexivity l;
|}.

(** * Properties *)

(** ** The primitives on concrete inputs *)

Example stem_docx : Path.stem false "in/sub/report.v2.docx" = "report.v2".
Proof. reflexivity. Qed.

Example stem_dots :
  Path.stem false "in/..docx" = "." ∧ Path.stem true "in/..docx" = "..docx".
Proof. split; reflexivity. Qed.

Example name_trailing_slash : Path.name "in/My Docs/" = "My Docs".
Proof. reflexivity. Qed.

Example of_str_normalises : Path.of_str "in//sub/./a.docx" = "in/sub/a.docx".
Proof. reflexivity. Qed.

Example fmt_7 : Py.fmt_02d 7 = "07".
Proof. reflexivity. Qed.

Example fmt_42 : Py.fmt_02d 42 = "42".
Proof. reflexivity. Qed.

Example split_ex : Py.split "  a bc   d " = ["a"; "bc"; "d"].
Proof. reflexivity. Qed.

Example strip_ex : Py.strip "  a b  " = "a b".
Proof. reflexivity. Qed.

Example slug_ex : folder_slug "in/My Docs (2024)/" = "my_docs_2024_".
Proof. reflexivity. Qed.

Example find_docx_files_ex :
  find_docx_files
    (sample_env (Ok ()) (Ok letter) (Ok "")
       ["in/a.docx"; "in/~$a.docx"; "in/notes.txt"; "in/sub/b.docx"] (Some 2))
    "in"
  = ["in/a.docx"; "in/sub/b.docx"].
Proof. reflexivity. Qed.

(** ** Strings *)

Section Strings.

Local Arguments String.append : simpl nomatch.

Lemma append_cons c (s t : string) : String c s +:+ t = String c (s +:+ t).
Proof. reflexivity. Qed.

Lemma append_empty_r (s : string) : s +:+ "" = s.
Proof. induction s as [|c s IH]; simpl; [done | by rewrite IH]. Qed.

Lemma length_append (s t : string) :
  String.length (s +:+ t) = String.length s + String.length t.
Proof. induction s as [|c s IH]; simpl; [done | by rewrite IH]. Qed.

Lemma length_zeros k : String.length (Py.zeros k) = k.
Proof. induction k as [|k IH]; simpl; [done | by rewrite IH]. Qed.

(** *** [strip] keeps something exactly when the text is not blank *)

Lemma rstrip_is_empty s : Py.is_empty (Py.rstrip s) = whitespace_only s.
Proof.
  induction s as [|c s IH]; simpl; [done |].
  rewrite IH. by destruct (Py.isspace c), (whitespace_only s).
Qed.

Lemma lstrip_whitespace_only s :
  whitespace_only (Py.lstrip s) = whitespace_only s.
Proof.
  induction s as [|c s IH]; simpl; [done |].
  destruct (Py.isspace c) eqn:Hc; simpl; [done | by rewrite Hc].
Qed.

Lemma strip_truthy s : Py.truthy (Py.strip s) = negb (whitespace_only s).
Proof.
  unfold Py.truthy, Py.strip.
  by rewrite rstrip_is_empty, lstrip_whitespace_only.
Qed.

Lemma stripped_non_empty_retained doc :
  stripped_non_empty (doc_paragraphs doc) = retained_paragraphs doc.
Proof.
  unfold stripped_non_empty, retained_paragraphs. f_equal.
  apply list_filter_iff. intros p. rewrite strip_truthy.
  destruct (whitespace_only p); simpl; naive_solver.
Qed.

(** *** [split] over texts joined by one space *)

Lemma split_starts_word s : Py.starts_word s = true → Py.split s ≠ [].
Proof.
  destruct s as [|c s]; simpl; [done |].
  destruct (Py.isspace c); simpl; [done |]. intros _.
  destruct (Py.starts_word s); [|done].
  by destruct (Py.split s).
Qed.

Lemma push_app c (l k : list string) :
  l ≠ [] → Py.push c (l ++ k) = Py.push c l ++ k.
Proof. by destruct l. Qed.

Lemma starts_word_app_space (a b : string) :
  Py.starts_word (a +:+ " " +:+ b) = Py.starts_word a.
Proof. by destruct a. Qed.

Lemma split_cons c s :
  Py.split (String c s)
  = if Py.isspace c then Py.split s
    else if Py.starts_word s then Py.push c (Py.split s)
    else String c "" :: Py.split s.
Proof. reflexivity. Qed.

Lemma split_app_space (a b : string) :
  Py.split (a +:+ " " +:+ b) = Py.split a ++ Py.split b.
Proof.
  induction a as [|c a IH]; [done |].
  rewrite append_cons, !split_cons, starts_word_app_space, IH.
  destruct (Py.isspace c); [done |].
  destruct (Py.starts_word a) eqn:Ha; [|done].
  by apply push_app, split_starts_word.
Qed.

Lemma split_join_space (l : list string) :
  Py.split (Py.join " " l) = tokens l.
Proof.
  unfold tokens.
  induction l as [|x [|y l] IH]; [done | |].
  - simpl. by rewrite app_nil_r.
  - change (Py.join " " (x :: y :: l)) with (x +:+ " " +:+ Py.join " " (y :: l)).
    by rewrite split_app_space, IH.
Qed.

End Strings.

(** ** Decimal rendering *)

Section Decimal.

Local Arguments String.append : simpl nomatch.

Lemma digit_val_char d : d < 10 → Py.digit_val (Py.digit_char d) = Some d.
Proof.
  intros Hd. do 10 (destruct d as [|d]; [reflexivity |]). lia.
Qed.

Lemma digits_go_S fuel n acc :
  Py.digits_go (S fuel) n acc
  = if n <? 10 then n :: acc
    else Py.digits_go fuel (n / 10) (n `mod` 10 :: acc).
Proof. reflexivity. Qed.

Lemma digits_go_small fuel n acc :
  Forall (λ d, d < 10) acc → Forall (λ d, d < 10) (Py.digits_go fuel n acc).
Proof.
  revert n acc. induction fuel as [|fuel IH]; intros n acc Hacc; [done |].
  rewrite digits_go_S. destruct (n <? 10) eqn:Hn.
  - apply Nat.ltb_lt in Hn. by constructor.
  - apply IH. constructor; [|done]. apply Nat.mod_upper_bound. lia.
Qed.

Lemma digits_go_value fuel n acc :
  n < fuel → value_from 0 (Py.digits_go fuel n acc) = value_from n acc.
Proof.
  revert n acc. induction fuel as [|fuel IH]; intros n acc Hn; [lia |].
  rewrite digits_go_S. destruct (n <? 10) eqn:Hlt; [done |].
  apply Nat.ltb_ge in Hlt.
  rewrite IH.
  - unfold value_from. cbn [foldl]. f_equal.
    pose proof (Nat.div_mod_eq n 10). lia.
  - assert (n / 10 < n) by (apply Nat.div_lt; lia). lia.
Qed.

Lemma digits_value n : value_from 0 (Py.digits n) = n.
Proof. unfold Py.digits. rewrite digits_go_value by lia. done. Qed.

Lemma digits_small n : Forall (λ d, d < 10) (Py.digits n).
Proof. apply digits_go_small. constructor. Qed.

Lemma read_int_go_cons c s a :
  Py.read_int_go (String c s) a
  = match Py.digit_val c with
    | Some d => Py.read_int_go s (10 * a + d)
    | None => a
    end.
Proof. reflexivity. Qed.

Lemma read_digits ds rest a :
  Forall (λ d, d < 10) ds →
  Py.read_int_go (Py.string_of_digits ds +:+ rest) a
  = Py.read_int_go rest (value_from a ds).
Proof.
  intros Hds. revert a.
  induction Hds as [|d ds Hd _ IH]; intros a; [reflexivity |].
  cbn [Py.string_of_digits]. rewrite append_cons, read_int_go_cons.
  rewrite digit_val_char by done. apply IH.
Qed.

Lemma read_zeros k s : Py.read_int_go (Py.zeros k +:+ s) 0 = Py.read_int_go s 0.
Proof. induction k as [|k IH]; [reflexivity |]. apply IH. Qed.

Lemma append_assoc (s t u : string) : (s +:+ t) +:+ u = s +:+ t +:+ u.
Proof. induction s as [|c s IH]; simpl; [done | by rewrite IH]. Qed.

(** The counter can be read back from whatever starts with its rendering
    followed by an underscore. *)
Lemma read_fmt_02d n rest : Py.read_int (Py.fmt_02d n +:+ "_" +:+ rest) = n.
Proof.
  unfold Py.read_int, Py.fmt_02d, Py.str_int.
  rewrite append_assoc, read_zeros, read_digits by apply digits_small.
  by rewrite digits_value.
Qed.

Lemma length_string_of_digits ds :
  String.length (Py.string_of_digits ds) = length ds.
Proof. induction ds as [|d ds IH]; simpl; [done | by rewrite IH]. Qed.

Lemma length_fmt_02d_ge n : 2 ≤ String.length (Py.fmt_02d n).
Proof. unfold Py.fmt_02d. rewrite length_append, length_zeros. lia. Qed.

Lemma length_fmt_02d_lt_100 n : n < 100 → String.length (Py.fmt_02d n) = 2.
Proof.
  intros Hn. unfold Py.fmt_02d, Py.str_int, Py.digits.
  rewrite length_append, length_zeros, length_string_of_digits.
  rewrite digits_go_S. destruct (n <? 10) eqn:H10; [done |].
  apply Nat.ltb_ge in H10.
  destruct n as [|n]; [lia |]. rewrite digits_go_S.
  assert (S n / 10 < 10) as H%Nat.ltb_lt
    by (apply Nat.Div0.div_lt_upper_bound; lia).
  by rewrite H.
Qed.

Lemma markdown_filename_counter env counter file_path :
  Py.read_int (markdown_filename env counter file_path) = counter.
Proof. apply read_fmt_02d. Qed.

Lemma markdown_filename_inj env c1 f1 c2 f2 :
  markdown_filename env c1 f1 = markdown_filename env c2 f2 → c1 = c2.
Proof.
  intros H. by rewrite <-(markdown_filename_counter env c1 f1), H,
    markdown_filename_counter.
Qed.

End Decimal.

(** ** The monad *)

Lemma mret_bind {A B} (a : A) (k : A → M B) : (mret a ≫= k) = k a.
Proof. unfold mret, mbind, M_ret, M_bind. by destruct (k a). Qed.

Lemma raise_bind {A B} (e : exn) (k : A → M B) : (raise e ≫= k) = raise e.
Proof. reflexivity. Qed.

Lemma call_ok_bind {A B} ev (a : A) (k : A → M B) :
  (call ev (Ok a) ≫= k) = (ev :: (k a).1, (k a).2).
Proof. unfold call, mbind, M_bind. by destruct (k a). Qed.

Lemma call_raise_bind {A B} ev e (k : A → M B) :
  (call ev (Raise e) ≫= k) = ([ev], Raise e).
Proof. reflexivity. Qed.

Lemma Ok_inj {A} (a b : A) : Ok a = Ok b → a = b.
Proof. by intros [= ->]. Qed.

Lemma bind_returns {A B} (m : M A) (k : A → M B) tr a tr' b :
  m = (tr, Ok a) → k a = (tr', Ok b) → (m ≫= k) = (tr ++ tr', Ok b).
Proof. intros -> Hk. unfold mbind, M_bind. by rewrite Hk. Qed.

Lemma trace_bind {A B} (m : M A) (k : A → M B) :
  trace (m ≫= k)
  = trace m ++ match result m with Ok a => trace (k a) | Raise _ => [] end.
Proof.
  destruct m as [tr [a|e]]; unfold mbind, M_bind, trace, result; simpl.
  - by destruct (k a).
  - by rewrite app_nil_r.
Qed.

Lemma result_bind {A B} (m : M A) (k : A → M B) :
  result (m ≫= k)
  = match result m with Ok a => result (k a) | Raise e => Raise e end.
Proof.
  destruct m as [tr [a|e]]; unfold mbind, M_bind, result; simpl; [|done].
  by destruct (k a).
Qed.

(** ** The content dictionary *)

Lemma content_paragraphs doc :
  content_of doc !! "paragraphs" = Some (CStr (paragraphs_text doc)).
Proof. unfold content_of. by rewrite lookup_insert_eq. Qed.

Lemma content_tables doc : ∃ t, content_of doc !! "tables" = Some (CStr t).
Proof.
  unfold content_of. eexists.
  by rewrite lookup_insert_ne, lookup_insert_eq by done.
Qed.

Lemma content_word_count doc :
  content_of doc !! "word_count"
  = Some (CInt (length (Py.split (Py.join " "
                  (stripped_non_empty (doc_paragraphs doc)))))).
Proof.
  unfold content_of. by rewrite !lookup_insert_ne, lookup_insert_eq by done.
Qed.

Lemma content_paragraph_count doc :
  content_of doc !! "paragraph_count"
  = Some (CInt (length (stripped_non_empty (doc_paragraphs doc)))).
Proof.
  unfold content_of. by rewrite !lookup_insert_ne, lookup_insert_eq by done.
Qed.

(** Building the prompt of a parsed document never raises and calls
    nothing. *)
Lemma prompt_returns file_path doc :
  prompt file_path (content_of doc) = mret (prompt_text file_path doc).
Proof.
  assert (∃ s, prompt file_path (content_of doc) = mret s) as [s Hs].
  { unfold prompt, getitem.
    destruct (content_tables doc) as [t Ht].
    rewrite content_word_count, content_paragraph_count, content_paragraphs, Ht.
    rewrite !mret_bind. unfold cval_slice_to. rewrite !mret_bind. by eexists. }
  unfold prompt_text. by rewrite Hs.
Qed.

(** ** Result records *)

Lemma success_record_error p c essay : success_record p c essay !! "error" = None.
Proof. unfold success_record. by rewrite !lookup_insert_ne, lookup_empty by done. Qed.

Lemma success_record_essay p c essay :
  success_record p c essay !! "essay" = Some (RStr essay).
Proof. unfold success_record. by rewrite !lookup_insert_ne, lookup_insert_eq by done. Qed.

Lemma success_record_content p c essay :
  success_record p c essay !! "content" = Some (RContent c).
Proof. unfold success_record. by rewrite lookup_insert_ne, lookup_insert_eq by done. Qed.

Lemma success_record_file_path p c essay :
  success_record p c essay !! "file_path" = Some (RStr p).
Proof. unfold success_record. by rewrite lookup_insert_eq. Qed.

Lemma error_record_error p e : error_record p e !! "error" = Some (RStr (exn_msg e)).
Proof. unfold error_record. by rewrite lookup_insert_ne, lookup_insert_eq by done. Qed.

Lemma error_record_essay p e : error_record p e !! "essay" = Some (RStr "").
Proof. unfold error_record. by rewrite !lookup_insert_ne, lookup_insert_eq by done. Qed.

Lemma error_record_content p e : error_record p e !! "content" = Some (RContent ∅).
Proof. unfold error_record. by rewrite !lookup_insert_ne, lookup_insert_eq by done. Qed.

Lemma error_record_file_path p e : error_record p e !! "file_path" = Some (RStr p).
Proof. unfold error_record. by rewrite lookup_insert_eq. Qed.

(** ** The worker, step by step *)

Section Worker.

Context (env : Env) (p model : string).

(** The client cannot be constructed. *)
Lemma body_client_raises e :
  ollama_Client env p = Raise e →
  process_file_body env p model = ([EClient p], Raise e).
Proof. intros H. unfold process_file_body. by rewrite H. Qed.

(** The document cannot be opened or parsed. *)
Lemma body_document_raises e :
  ollama_Client env p = Ok () →
  docx_Document env (Path.of_str p) = Raise e →
  process_file_body env p model = ([EClient p; EDocument (Path.of_str p)], Raise e).
Proof.
  intros Hc Hd. unfold process_file_body.
  by rewrite Hc, Hd.
Qed.

(** The document has no readable paragraph. *)
Lemma body_blank doc :
  ollama_Client env p = Ok () →
  docx_Document env (Path.of_str p) = Ok doc →
  paragraphs_text doc = "" →
  process_file_body env p model
  = ([EClient p; EDocument (Path.of_str p)],
     Ok (success_record p (content_of doc) (placeholder p))).
Proof.
  intros Hc Hd Hblank. unfold process_file_body.
  rewrite Hc, Hd, !call_ok_bind. unfold getitem.
  rewrite content_paragraphs, Hblank. reflexivity.
Qed.

(** The generation call fails. *)
Lemma body_generate_raises doc e :
  ollama_Client env p = Ok () →
  docx_Document env (Path.of_str p) = Ok doc →
  paragraphs_text doc ≠ "" →
  client_generate env model (prompt_text (Path.of_str p) doc) = Raise e →
  process_file_body env p model
  = ([EClient p; EDocument (Path.of_str p);
      EGenerate model (prompt_text (Path.of_str p) doc)], Raise e).
Proof.
  intros Hc Hd Htext Hg. unfold process_file_body.
  rewrite Hc, Hd, !call_ok_bind. unfold getitem.
  rewrite content_paragraphs, mret_bind.
  destruct (paragraphs_text doc) as [|c s] eqn:Hp; [done |].
  cbn [cval_truthy Py.truthy Py.is_empty negb].
  by rewrite prompt_returns, mret_bind, Hg.
Qed.

(** The generation call answers. *)
Lemma body_generated doc essay :
  ollama_Client env p = Ok () →
  docx_Document env (Path.of_str p) = Ok doc →
  paragraphs_text doc ≠ "" →
  client_generate env model (prompt_text (Path.of_str p) doc) = Ok essay →
  process_file_body env p model
  = ([EClient p; EDocument (Path.of_str p);
      EGenerate model (prompt_text (Path.of_str p) doc)],
     Ok (success_record p (content_of doc) essay)).
Proof.
  intros Hc Hd Htext Hg. unfold process_file_body.
  rewrite Hc, Hd, !call_ok_bind. unfold getitem.
  rewrite content_paragraphs, mret_bind.
  destruct (paragraphs_text doc) as [|c s] eqn:Hp; [done |].
  cbn [cval_truthy Py.truthy Py.is_empty negb].
  by rewrite prompt_returns, mret_bind, Hg.
Qed.

Lemma body_path : worker_path env p model (process_file_body env p model).
Proof.
  destruct (ollama_Client env p) as [[]|e] eqn:Hc.
  2: { rewrite (body_client_raises e) by done. by constructor. }
  destruct (docx_Document env (Path.of_str p)) as [doc|e] eqn:Hd.
  2: { rewrite (body_document_raises e) by done. by constructor. }
  destruct (decide (paragraphs_text doc = "")) as [Hblank|Htext].
  { rewrite (body_blank doc) by done. by constructor. }
  destruct (client_generate env model (prompt_text (Path.of_str p) doc))
    as [essay|e] eqn:Hg.
  - rewrite (body_generated doc essay) by done. by econstructor.
  - rewrite (body_generate_raises doc e) by done. by econstructor.
Qed.

(** What [try] / [except] makes of the block. *)
Lemma process_file_unfold :
  process_file env p model
  = match process_file_body env p model with
    | (tr, Ok r) => (tr, Ok r)
    | (tr, Raise e) =>
        if is_Exception e then (tr, Ok (error_record p e)) else (tr, Raise e)
    end.
Proof.
  unfold process_file, try_except.
  destruct (process_file_body env p model) as [tr [r|e]]; [done |].
  destruct (is_Exception e); [|done]. simpl. by rewrite app_nil_r.
Qed.

End Worker.

(** ** The worker: what the [try] block and its [except] clause give *)

(** A failed step, whichever it is, makes the [try] block raise. *)
Lemma step_failure_raises env p model e :
  step_fails env p model e →
  result (process_file_body env p model) = Raise e.
Proof.
  intros [Hc | [[Hc Hd] | (doc & Hc & Hd & Htext & Hg)]].
  - by rewrite (body_client_raises _ _ _ e).
  - by rewrite (body_document_raises _ _ _ e).
  - by rewrite (body_generate_raises _ _ _ doc e).
Qed.

(** The [try] block raises only through one of these steps: building the
    prompt and the record cannot fail. *)
Lemma raises_by_step env p model e :
  result (process_file_body env p model) = Raise e →
  step_fails env p model e.
Proof.
  intros Hr. unfold step_fails.
  destruct (body_path env p model); simplify_eq/=; eauto 10.
Qed.

Lemma worker_trace env p model :
  trace (process_file env p model) = trace (process_file_body env p model).
Proof.
  rewrite process_file_unfold.
  destruct (process_file_body env p model) as [tr [r|e]]; [done |].
  by destruct (is_Exception e).
Qed.

(** The three ways out of [process_file]: the record of a failure caught,
    the exception that is not caught, the record of a success. *)
Lemma process_file_cases env p model :
  (∃ e, result (process_file_body env p model) = Raise e
      ∧ is_Exception e = true
      ∧ result (process_file env p model) = Ok (error_record p e))
  ∨ (∃ e, result (process_file_body env p model) = Raise e
        ∧ is_Exception e = false
        ∧ result (process_file env p model) = Raise e)
  ∨ (∃ doc essay,
        docx_Document env (Path.of_str p) = Ok doc
        ∧ result (process_file_body env p model)
          = Ok (success_record p (content_of doc) essay)
        ∧ result (process_file env p model)
          = Ok (success_record p (content_of doc) essay)).
Proof.
  rewrite process_file_unfold.
  destruct (body_path env p model) as [e Hc|e Hc Hd|doc Hc Hd Hb
    |doc e Hc Hd Ht Hg|doc essay Hc Hd Ht Hg].
  1, 2, 4: destruct (is_Exception e) eqn:He;
    [left; by exists e | right; left; by exists e].
  - right. right. by exists doc, (placeholder p).
  - right. right. by exists doc, essay.
Qed.

(** A record that is returned is one of the two records. *)
Lemma process_file_returned env p model r :
  result (process_file env p model) = Ok r →
  (∃ e, r = error_record p e
      ∧ result (process_file_body env p model) = Raise e
      ∧ is_Exception e = true)
  ∨ (∃ doc essay, docx_Document env (Path.of_str p) = Ok doc
      ∧ r = success_record p (content_of doc) essay
      ∧ result (process_file_body env p model) = Ok r).
Proof.
  intros Hr.
  destruct (process_file_cases env p model)
    as [(e & Hb & He & Hpf) | [(e & Hb & He & Hpf)
        | (doc & essay & Hd & Hb & Hpf)]];
    rewrite Hpf in Hr.
  - apply Ok_inj in Hr as <-. left. by exists e.
  - discriminate.
  - apply Ok_inj in Hr as <-. right. by exists doc, essay.
Qed.

(** ** The worker: claims about [process_file] *)

(** C1, as it is worded, fails: an exception outside [Exception] is not
    caught by line 81. Ctrl-C during the generation call leaves
    [process_file] as [KeyboardInterrupt], and no record is returned. *)
Lemma interrupt_reaches_caller :
  result (process_file
            (sample_env (Ok ()) (Ok letter) (Raise interrupt) [] (Some 4))
            "in/a.docx" "llama3.2")
  = Raise interrupt
  ∧ is_Exception interrupt = false
  ∧ ∀ r, result (process_file
                   (sample_env (Ok ()) (Ok letter) (Raise interrupt) [] (Some 4))
                   "in/a.docx" "llama3.2") ≠ Ok r.
Proof.
  assert (result (process_file
            (sample_env (Ok ()) (Ok letter) (Raise interrupt) [] (Some 4))
            "in/a.docx" "llama3.2") = Raise interrupt) as Hr.
  { rewrite process_file_unfold.
    by rewrite (body_generate_raises _ _ _ letter interrupt). }
  split; [exact Hr |]. split; [done |]. intros r. by rewrite Hr.
Qed.

(** C1, amended. Whenever a step of the [try] block (constructing the
    client, opening the document, the generation call; building the prompt
    cannot raise) raises an instance [e] of [Exception], [process_file]
    returns a record with ['error'] set to [str(e)], an empty ['content']
    and an empty ['essay']; it raises to its caller exactly the exceptions
    of a step that are outside [Exception], and it returns a record without
    ['error'] when no step raises. *)
Theorem process_file_catches_exceptions env p model :
  (∀ e, step_fails env p model e → is_Exception e = true →
     ∃ r, result (process_file env p model) = Ok r
       ∧ r !! "file_path" = Some (RStr p)
       ∧ r !! "error" = Some (RStr (exn_msg e))
       ∧ r !! "content" = Some (RContent ∅)
       ∧ r !! "essay" = Some (RStr ""))
  ∧ (∀ e, step_fails env p model e → is_Exception e = false →
       result (process_file env p model) = Raise e)
  ∧ (∀ e, result (process_file env p model) = Raise e →
       step_fails env p model e ∧ is_Exception e = false)
  ∧ ((∀ e, ¬ step_fails env p model e) →
       ∃ r, result (process_file env p model) = Ok r ∧ r !! "error" = None).
Proof.
  split; [|split; [|split]].
  - intros e Hstep%step_failure_raises He.
    destruct (process_file_cases env p model)
      as [(e' & Hb & _ & Hpf) | [(e' & Hb & He' & _) | (doc & essay & _ & Hb & _)]];
      rewrite Hb in Hstep; simplify_eq; [|congruence].
    exists (error_record p e). split; [exact Hpf |].
    by rewrite error_record_file_path, error_record_error,
      error_record_content, error_record_essay.
  - intros e Hstep%step_failure_raises He.
    destruct (process_file_cases env p model)
      as [(e' & Hb & He' & _) | [(e' & Hb & _ & Hpf) | (doc & essay & _ & Hb & _)]];
      rewrite Hb in Hstep; simplify_eq; [congruence |]. exact Hpf.
  - intros e Hr.
    destruct (process_file_cases env p model)
      as [(e' & Hb & _ & Hpf) | [(e' & Hb & He' & Hpf) | (doc & essay & _ & Hb & Hpf)]];
      rewrite Hpf in Hr; try discriminate.
    injection Hr as <-. split; [by apply raises_by_step | done].
  - intros Hnone.
    destruct (process_file_cases env p model)
      as [(e & Hb & _) | [(e & Hb & _) | (doc & essay & _ & _ & Hpf)]].
    1, 2: by destruct (Hnone e); apply raises_by_step.
    eexists. split; [exact Hpf |]. apply success_record_error.
Qed.

(** The same at a worker whose generation call fails with an instance of
    [Exception]. *)
Lemma process_file_catches_exceptions_witness :
  ∃ r, result (process_file (sample_env (Ok ()) (Ok letter) (Raise boom) [] (Some 4))
                 "in/a.docx" "llama3.2") = Ok r
    ∧ r !! "error" = Some (RStr "connection refused")
    ∧ r !! "essay" = Some (RStr "").
Proof.
  destruct (process_file_catches_exceptions
              (sample_env (Ok ()) (Ok letter) (Raise boom) [] (Some 4))
              "in/a.docx" "llama3.2") as (Hcaught & _).
  destruct (Hcaught boom) as (r & Hr & _ & He & _ & Hs); [|reflexivity |].
  - right. right. exists letter. by repeat split.
  - by exists r.
Defined.

(** C9, as it is worded, fails for the same reason: when the construction
    of the client is interrupted, no record is returned for the file. *)
Lemma client_interrupt_reaches_caller :
  process_file (sample_env (Raise interrupt) (Ok blank) (Ok "unused") [] (Some 4))
    "in/blank.docx" "llama3.2"
  = ([EClient "in/blank.docx"], Raise interrupt).
Proof.
  rewrite process_file_unfold.
  by rewrite (body_client_raises _ _ _ interrupt).
Qed.

(** C9, amended. The client is constructed first, in front of every other
    call of the worker; so when its construction raises, the worker stops
    there and the document is never opened, whatever the file holds. For
    an instance [e] of [Exception] the worker then returns the record with
    ['error'] set to [str(e)], an empty ['content'] and an empty ['essay'];
    another exception reaches the caller. *)
Theorem client_failure_is_error_record env p model :
  head (trace (process_file env p model)) = Some (EClient p)
  ∧ ∀ e, ollama_Client env p = Raise e →
      trace (process_file env p model) = [EClient p]
      ∧ (is_Exception e = true →
         ∃ r, result (process_file env p model) = Ok r
           ∧ r !! "file_path" = Some (RStr p)
           ∧ r !! "error" = Some (RStr (exn_msg e))
           ∧ r !! "content" = Some (RContent ∅)
           ∧ r !! "essay" = Some (RStr ""))
      ∧ (is_Exception e = false → result (process_file env p model) = Raise e).
Proof.
  split.
  - rewrite worker_trace. by destruct (body_path env p model).
  - intros e Hc. rewrite process_file_unfold, (body_client_raises _ _ _ e Hc).
    split; [by destruct (is_Exception e) |].
    split; intros ->; [|done].
    exists (error_record p e). split; [done |].
    by rewrite error_record_file_path, error_record_error,
      error_record_content, error_record_essay.
Qed.

(** The client fails on a document without text, which needs no
    generation. *)
Lemma client_failure_is_error_record_witness :
  trace (process_file (sample_env (Raise boom) (Ok blank) (Ok "unused") [] (Some 4))
           "in/blank.docx" "llama3.2") = [EClient "in/blank.docx"]
  ∧ ∃ r, result (process_file
                   (sample_env (Raise boom) (Ok blank) (Ok "unused") [] (Some 4))
                   "in/blank.docx" "llama3.2") = Ok r
      ∧ r !! "error" = Some (RStr "connection refused")
      ∧ r !! "essay" = Some (RStr "").
Proof.
  destruct (client_failure_is_error_record
              (sample_env (Raise boom) (Ok blank) (Ok "unused") [] (Some 4))
              "in/blank.docx" "llama3.2") as [_ Hfail].
  destruct (Hfail boom) as (Htr & Hrec & _); [reflexivity |].
  split; [exact Htr |].
  destruct Hrec as (r & Hr & _ & He & _ & Hs); [reflexivity |].
  by exists r.
Defined.



Lemma placeholder_non_empty p : placeholder p ≠ "".
Proof. done. Qed.

(** C2, as it is worded, fails: for a document with text and a generation
    service that answers with the empty string, the record has no ['error']
    key and its essay is empty. *)
Lemma empty_reply_breaks_invariant :
  ∃ r, result (process_file (sample_env (Ok ()) (Ok letter) (Ok "") [] (Some 4))
                 "in/a.docx" "llama3.2") = Ok r
    ∧ r !! "error" = None
    ∧ r !! "essay" = Some (RStr "")
    ∧ ¬ essay_nonempty_invariant r.
Proof.
  eexists. split.
  { rewrite process_file_unfold.
    by rewrite (body_generated _ _ _ letter ""). }
  rewrite success_record_error, success_record_essay.
  split; [done |]. split; [done |].
  intros [[[v Hv] _] | (_ & s & Hs & Hne)].
  - by rewrite success_record_error in Hv.
  - rewrite success_record_essay in Hs. by simplify_eq.
Qed.

(** C2, amended. Every record returned by [process_file] either has
    ['error'] set and an empty essay, or has no ['error'] key and its essay
    is the placeholder, which is not empty, or the very text the generation
    service returned, empty or not. A record is returned whenever the steps
    of the worker raise instances of [Exception] only. *)
Theorem result_record_invariant env p model :
  (∀ r, result (process_file env p model) = Ok r →
     (∃ msg, r !! "error" = Some (RStr msg) ∧ r !! "essay" = Some (RStr ""))
     ∨ (r !! "error" = None
        ∧ ∃ essay, r !! "essay" = Some (RStr essay)
            ∧ ((essay = placeholder p ∧ essay ≠ "")
               ∨ ∃ doc, docx_Document env (Path.of_str p) = Ok doc
                   ∧ client_generate env model
                       (prompt_text (Path.of_str p) doc) = Ok essay)))
  ∧ ((∀ e, step_fails env p model e → is_Exception e = true) →
     ∃ r, result (process_file env p model) = Ok r).
Proof.
  split.
  - intros r. rewrite process_file_unfold.
    destruct (body_path env p model) as [e Hc|e Hc Hd|doc Hc Hd Hb
      |doc e Hc Hd Ht Hg|doc essay Hc Hd Ht Hg].
    1, 2, 4: destruct (is_Exception e); [|discriminate];
      intros <-%Ok_inj; left; exists (exn_msg e);
      by rewrite error_record_error, error_record_essay.
    + intros <-%Ok_inj. right.
      rewrite success_record_error, success_record_essay.
      split; [done |]. eexists. split; [done |]. left.
      split; [done | apply placeholder_non_empty].
    + intros <-%Ok_inj. right.
      rewrite success_record_error, success_record_essay.
      split; [done |]. eexists. split; [done |]. right. by exists doc.
  - intros Hexc.
    destruct (process_file_cases env p model)
      as [(e & _ & _ & Hpf) | [(e & Hb & He & _) | (doc & essay & _ & _ & Hpf)]];
      [by eexists | | by eexists].
    apply raises_by_step, Hexc in Hb. congruence.
Qed.

(** ** The extractor: word and paragraph counts *)

(** Stripping and discarding blank paragraphs loses no token. *)
Lemma split_lstrip s : Py.split (Py.lstrip s) = Py.split s.
Proof.
  induction s as [|c s IH]; [done |].
  rewrite split_cons. cbn [Py.lstrip].
  destruct (Py.isspace c) eqn:Hc; [done |]. by rewrite split_cons, Hc.
Qed.

Lemma split_whitespace_only s : whitespace_only s = true → Py.split s = [].
Proof.
  induction s as [|c s IH]; [done |].
  cbn [whitespace_only]. rewrite split_cons.
  intros [Hc Hs]%andb_true_iff. rewrite Hc. auto.
Qed.

Lemma starts_word_rstrip s : Py.starts_word (Py.rstrip s) = Py.starts_word s.
Proof.
  destruct s as [|c s]; [done |]. cbn [Py.rstrip].
  destruct (Py.isspace c) eqn:Hc; simpl.
  - destruct (Py.is_empty (Py.rstrip s)); simpl; by rewrite ?Hc.
  - by rewrite Hc.
Qed.

Lemma split_rstrip s : Py.split (Py.rstrip s) = Py.split s.
Proof.
  induction s as [|c s IH]; [done |].
  cbn [Py.rstrip]. rewrite rstrip_is_empty.
  destruct (Py.isspace c) eqn:Hc; simpl andb; cbv iota.
  - destruct (whitespace_only s) eqn:Hs.
    + rewrite split_cons, Hc. by rewrite (split_whitespace_only s).
    + by rewrite !split_cons, Hc, IH.
  - by rewrite !split_cons, Hc, starts_word_rstrip, IH.
Qed.

Lemma split_strip s : Py.split (Py.strip s) = Py.split s.
Proof. unfold Py.strip. by rewrite split_rstrip, split_lstrip. Qed.

Lemma tokens_retained doc :
  tokens (retained_paragraphs doc) = tokens (doc_paragraphs doc).
Proof.
  unfold tokens, retained_paragraphs.
  induction (doc_paragraphs doc) as [|x l IH]; [done |].
  rewrite filter_cons. destruct (decide (¬ whitespace_only x)) as [Hx|Hx].
  - rewrite fmap_cons, !bind_cons, IH. by rewrite split_strip.
  - rewrite bind_cons, IH, split_whitespace_only; [done |].
    destruct (whitespace_only x); [done |]. exfalso. apply Hx. intros [].
Qed.

Lemma word_count_tokens doc :
  content_of doc !! "word_count"
  = Some (CInt (length (tokens (retained_paragraphs doc)))).
Proof.
  by rewrite content_word_count, split_join_space, stripped_non_empty_retained.
Qed.

Lemma paragraph_count_retained doc :
  content_of doc !! "paragraph_count"
  = Some (CInt (length (retained_paragraphs doc))).
Proof. by rewrite content_paragraph_count, stripped_non_empty_retained. Qed.

(** C8. The ['word_count'] of the content is the number of
    whitespace-separated tokens of the retained paragraphs (the paragraphs
    that are not blank, stripped) taken together, and ['paragraph_count'] is
    the number of retained paragraphs; the retained paragraphs are what the
    code keeps, and they hold every token of the document. *)
Theorem counts_after_discarding doc :
  content_of doc !! "word_count"
    = Some (CInt (length (tokens (retained_paragraphs doc))))
  ∧ content_of doc !! "paragraph_count"
    = Some (CInt (length (retained_paragraphs doc)))
  ∧ stripped_non_empty (doc_paragraphs doc) = retained_paragraphs doc
  ∧ tokens (retained_paragraphs doc) = tokens (doc_paragraphs doc).
Proof.
  split; [apply word_count_tokens |].
  split; [apply paragraph_count_retained |].
  split; [apply stripped_non_empty_retained | apply tokens_retained].
Qed.

Example counts_letter :
  content_of letter !! "word_count" = Some (CInt 4)
  ∧ content_of letter !! "paragraph_count" = Some (CInt 2).
Proof. split; reflexivity. Qed.

(** ** The orchestrator: choosing the pool *)

Lemma pool_setup_determined n :
  pool_setup (Some n) = mret (4 <=? n, (if n =? 0 then 2 else n) `min` 8).
Proof. unfold pool_setup. by rewrite mret_bind. Qed.

(** With a detected parallelism (a positive number) the pool is made of
    processes exactly from 4 up, and has [min(parallelism, 8)] workers. *)
Lemma pool_setup_positive n :
  0 < n → pool_setup (Some n) = mret (bool_decide (4 ≤ n), n `min` 8).
Proof.
  intros Hn. rewrite pool_setup_determined.
  destruct n as [|n]; [lia |]. cbn [Nat.eqb]. do 2 f_equal.
  case_bool_decide as H4.
  - by apply Nat.leb_le.
  - apply Nat.leb_gt. lia.
Qed.

Lemma pool_setup_undetermined_raises_aux :
  pool_setup None
  = raise (Exn "TypeError"
      "'>=' not supported between instances of 'NoneType' and 'int'").
Proof. reflexivity. Qed.

(** C4. With a detected parallelism the orchestrator does what the claim
    says, but with an undetermined one ([os.cpu_count()] is [None]) it does
    not fall back to a pool of 2 threads: the comparison of line 113 raises
    [TypeError] in front of the fallback of line 115. *)
Theorem pool_setup_undetermined_raises :
  result (pool_setup None)
  = Raise (Exn "TypeError"
      "'>=' not supported between instances of 'NoneType' and 'int'")
  ∧ result (pool_setup None) ≠ Ok (false, 2)
  ∧ ∀ n, 0 < n → result (pool_setup (Some n)) = Ok (bool_decide (4 ≤ n), n `min` 8).
Proof.
  rewrite pool_setup_undetermined_raises_aux.
  split; [done |]. split; [done |].
  intros n Hn. by rewrite pool_setup_positive.
Qed.

(** ** The orchestrator: rendering a report *)

Lemma markdown_content_error env self p e file_path :
  markdown_content env self (error_record p e) file_path
  = mret (error_block (exn_msg e) file_path).
Proof.
  unfold markdown_content, contains, getitem.
  rewrite error_record_error, !mret_bind. reflexivity.
Qed.

Lemma markdown_content_success env self p doc essay file_path :
  markdown_content env self (success_record p (content_of doc) essay) file_path
  = mret (metadata (Path.name file_path) (time_strftime env (file_counter self))
            (Py.str_int (length (tokens (retained_paragraphs doc))))
            (Py.str_int (length (retained_paragraphs doc)))
          +:+ essay +:+ footer (model_name self)).
Proof.
  unfold markdown_content, contains, getitem.
  rewrite success_record_error, success_record_content, success_record_essay.
  rewrite !mret_bind. unfold rval_get.
  rewrite content_word_count, mret_bind. cbv beta.
  rewrite mret_bind. cbv beta.
  rewrite content_paragraph_count, !mret_bind.
  cbn [from_option id cval_format rval_str].
  by rewrite mret_bind, split_join_space, stripped_non_empty_retained.
Qed.

(** The record of a worker is one of the two records, whatever happened. *)

(** The header in front of whatever follows, character by character. *)
Lemma metadata_append name date wc pc rest :
  metadata name date wc pc +:+ rest
  = "# Document Analysis for " +:+ name +:+ Py.NL +:+ Py.NL
    +:+ "**Analysis Date:** " +:+ date +:+ Py.NL
    +:+ "**Word Count:** " +:+ wc +:+ Py.NL
    +:+ "**Paragraph Count:** " +:+ pc +:+ Py.NL +:+ Py.NL
    +:+ "---" +:+ Py.NL +:+ Py.NL +:+ rest.
Proof. unfold metadata. by rewrite !append_assoc. Qed.

(** The report of a record that a worker returned. *)
Lemma report_of_returned env self task model r :
  result (process_file env task model) = Ok r →
  r !! "file_path" = Some (RStr task)
  ∧ ((∃ e, r = error_record task e
        ∧ result (process_file_body env task model) = Raise e
        ∧ is_Exception e = true
        ∧ markdown_content env self r (Path.of_str task)
          = mret (error_block (exn_msg e) (Path.of_str task)))
     ∨ (∃ doc essay, docx_Document env (Path.of_str task) = Ok doc
        ∧ r = success_record task (content_of doc) essay
        ∧ result (process_file_body env task model) = Ok r
        ∧ markdown_content env self r (Path.of_str task)
          = mret (metadata (Path.name (Path.of_str task))
                    (time_strftime env (file_counter self))
                    (Py.str_int (length (tokens (retained_paragraphs doc))))
                    (Py.str_int (length (retained_paragraphs doc)))
                  +:+ essay +:+ footer (model_name self)))).
Proof.
  intros [(e & -> & Hb & He) | (doc & essay & Hd & -> & Hb)]%process_file_returned.
  - split; [apply error_record_file_path |]. left. exists e.
    by rewrite markdown_content_error.
  - split; [apply success_record_file_path |]. right. exists doc, essay.
    by rewrite markdown_content_success.
Qed.

(** An error report and a report with a header never coincide: they differ
    in their third character. *)
Lemma error_block_no_header err file_path name date wc pc :
  Py.startswith (error_block err file_path) (metadata name date wc pc) = false.
Proof. reflexivity. Qed.

Lemma header_not_error name date wc pc rest :
  Py.startswith (metadata name date wc pc +:+ rest) "# Error: " = false.
Proof. reflexivity. Qed.

Lemma error_block_is_error err file_path :
  Py.startswith (error_block err file_path) "# Error: " = true.
Proof. reflexivity. Qed.

(** ** The orchestrator: one round of the collecting loop *)

Lemma bind_ok {A B} tr (a : A) (k : A → M B) :
  ((tr, Ok a) ≫= k) = (tr ++ trace (k a), result (k a)).
Proof. unfold mbind, M_bind, trace, result. by destruct (k a). Qed.

Lemma bind_raise {A B} tr e (k : A → M B) :
  ((tr, Raise e) ≫= k) = (tr, Raise e).
Proof. reflexivity. Qed.

Lemma trace_pair {A} tr (o : outcome A) : trace (tr, o) = tr.
Proof. reflexivity. Qed.

Lemma written_app tr1 tr2 : written (tr1 ++ tr2) = written tr1 ++ written tr2.
Proof. apply omap_app. Qed.

Lemma printed_app tr1 tr2 : printed (tr1 ++ tr2) = printed tr1 ++ printed tr2.
Proof. apply omap_app. Qed.

Lemma made_dirs_app tr1 tr2 :
  made_dirs (tr1 ++ tr2) = made_dirs tr1 ++ made_dirs tr2.
Proof. apply omap_app. Qed.

Lemma generate_calls_app tr1 tr2 :
  generate_calls (tr1 ++ tr2) = generate_calls tr1 ++ generate_calls tr2.
Proof. apply omap_app. Qed.

Lemma worker_writes_nothing env p model :
  written (trace (process_file env p model)) = [].
Proof. rewrite worker_trace. by destruct (body_path env p model). Qed.

Lemma worker_quiet env p model :
  printed (trace (process_file env p model)) = []
  ∧ made_dirs (trace (process_file env p model)) = [].
Proof. rewrite worker_trace. by destruct (body_path env p model). Qed.

(** An exception that leaves the worker leaves the round: the counter has
    not moved, nothing is written and nothing is printed. *)
Lemma collect_worker_raises env output_dir self task e :
  result (process_file env task (model_name self)) = Raise e →
  collect env output_dir self task
  = (trace (process_file env task (model_name self)), Raise e).
Proof.
  unfold collect.
  destruct (process_file env task (model_name self)) as [wtr [r|e']];
    intros [= ->]. reflexivity.
Qed.

(** A report that cannot be written: [open] raises, the round is left
    after the worker's calls, and its progress line is not printed. *)
Lemma collect_write_raises env output_dir self task r content e :
  result (process_file env task (model_name self)) = Ok r →
  markdown_content env
    {| model_name := model_name self; file_counter := file_counter self + 1 |}
    r (Path.of_str task) = mret content →
  open_write env
    (Path.joinpath output_dir
       (markdown_filename env (file_counter self + 1) (Path.of_str task)))
    content = Raise e →
  collect env output_dir self task
  = (trace (process_file env task (model_name self)), Raise e).
Proof.
  intros Hr Hmc Hw.
  destruct (report_of_returned env self task (model_name self) r Hr) as [Hfp _].
  unfold collect.
  destruct (process_file env task (model_name self)) as [wtr [r'|e']];
    unfold result in Hr; cbn [snd] in Hr; [|discriminate].
  apply Ok_inj in Hr as ->.
  rewrite bind_ok. unfold getitem. rewrite Hfp, !mret_bind.
  cbn [rval_str]. rewrite mret_bind. cbn [model_name file_counter].
  rewrite Hmc, mret_bind. unfold write_file. rewrite Hw.
  unfold trace. cbn [fst snd raise mbind M_bind]. by rewrite app_nil_r.
Qed.

(** A round that comes to its end: the worker's calls, one write, one
    progress line, and the counter one up. *)
Lemma collect_writes env output_dir self task r content :
  result (process_file env task (model_name self)) = Ok r →
  markdown_content env
    {| model_name := model_name self; file_counter := file_counter self + 1 |}
    r (Path.of_str task) = mret content →
  open_write env
    (Path.joinpath output_dir
       (markdown_filename env (file_counter self + 1) (Path.of_str task)))
    content = Ok () →
  collect env output_dir self task
  = (trace (process_file env task (model_name self))
     ++ [EWrite (Path.joinpath output_dir
                   (markdown_filename env (file_counter self + 1)
                      (Path.of_str task)))
           content;
         EPrint ("Processed " +:+ Path.name (Path.of_str task))],
     Ok {| model_name := model_name self;
           file_counter := file_counter self + 1 |}).
Proof.
  intros Hr Hmc Hw.
  destruct (report_of_returned env self task (model_name self) r Hr) as [Hfp _].
  unfold collect.
  destruct (process_file env task (model_name self)) as [wtr [r'|e']];
    unfold result in Hr; cbn [snd] in Hr; [|discriminate].
  apply Ok_inj in Hr as ->.
  rewrite bind_ok. unfold getitem. rewrite Hfp, !mret_bind.
  cbn [rval_str]. rewrite mret_bind. cbn [model_name file_counter].
  rewrite Hmc, mret_bind. unfold write_file. rewrite Hw.
  reflexivity.
Qed.

(** Every returned record has its report. *)
Lemma report_exists env self task model r :
  result (process_file env task model) = Ok r →
  ∃ content, markdown_content env self r (Path.of_str task) = mret content.
Proof.
  intros Hr.
  destruct (report_of_returned env self task model r Hr)
    as [_ [(e & _ & _ & _ & ->) | (doc & essay & _ & _ & _ & ->)]]; by eexists.
Qed.

(** The two ways out of a round. *)
Lemma collect_outcome env output_dir self task :
  (∃ e, collect env output_dir self task
        = (trace (process_file env task (model_name self)), Raise e))
  ∨ ∃ r content,
      result (process_file env task (model_name self)) = Ok r
      ∧ markdown_content env
          {| model_name := model_name self;
             file_counter := file_counter self + 1 |}
          r (Path.of_str task) = mret content
      ∧ collect env output_dir self task
        = (trace (process_file env task (model_name self))
           ++ [EWrite (Path.joinpath output_dir
                         (markdown_filename env (file_counter self + 1)
                            (Path.of_str task)))
                 content;
               EPrint ("Processed " +:+ Path.name (Path.of_str task))],
           Ok {| model_name := model_name self;
                 file_counter := file_counter self + 1 |}).
Proof.
  destruct (result (process_file env task (model_name self))) as [r|e] eqn:Hr.
  - destruct (report_exists env
                {| model_name := model_name self;
                   file_counter := file_counter self + 1 |}
                task (model_name self) r Hr) as [content Hmc].
    destruct (open_write env
                (Path.joinpath output_dir
                   (markdown_filename env (file_counter self + 1)
                      (Path.of_str task))) content) as [[]|e] eqn:Hw.
    + right. exists r, content. split; [done |]. split; [done |].
      by apply (collect_writes _ _ _ _ r).
    + left. exists e. by apply (collect_write_raises _ _ _ _ r content e).
  - left. exists e. by apply collect_worker_raises.
Qed.

(** A worker whose steps raise instances of [Exception] only returns its
    record. *)
Lemma process_file_returns env p model :
  (∀ e, step_fails env p model e → is_Exception e = true) →
  ∃ r, result (process_file env p model) = Ok r.
Proof.
  intros Hexc.
  destruct (process_file_cases env p model)
    as [(e & _ & _ & Hpf) | [(e & Hb & He & _) | (doc & essay & _ & _ & Hpf)]];
    [by eexists | | by eexists].
  apply raises_by_step, Hexc in Hb. congruence.
Qed.

(** ** The orchestrator: what a report holds *)

(** C5, as it is worded, fails: the report of a file that cannot be parsed
    is the error block alone; it does not start with the title of the
    header, and it does not end with the footer. *)
Lemma error_report_has_no_header :
  written (trace (collect
    (sample_env (Ok ()) (Raise bad_zip) (Ok "unused") ["in/a.docx"] (Some 4))
    "out" (DocxAnalyzer_init "llama3.2") "in/a.docx"))
  = [("out/01_a_analysis.md",
      "# Error: Package not found at 'in/a.docx'" +:+ Py.NL +:+ Py.NL
      +:+ "File: in/a.docx" +:+ Py.NL)]
  ∧ Py.startswith
      ("# Error: Package not found at 'in/a.docx'" +:+ Py.NL +:+ Py.NL
       +:+ "File: in/a.docx" +:+ Py.NL)
      "# Document Analysis for " = false
  ∧ Py.endswith
      ("# Error: Package not found at 'in/a.docx'" +:+ Py.NL +:+ Py.NL
       +:+ "File: in/a.docx" +:+ Py.NL)
      "*Generated using Ollama model: llama3.2*" = false.
Proof. split; [by vm_compute | split; reflexivity]. Qed.

(** C5, amended. The report of a record that a worker returned is, for a
    record without ['error'], the title naming the file, the analysis
    date, the word count and the paragraph count of the parsed document, a
    separator, the essay, a separator and the line naming the model; for a
    record with ['error'] it is the error block, the message and the file
    path, without header and without footer. That report is what the round
    writes, into [{NN}_{stem}_analysis.md] of the output directory, when
    the file can be written; nothing is written when it cannot. *)
Theorem report_layout env output_dir self task r :
  result (process_file env task (model_name self)) = Ok r →
  ∃ content,
    markdown_content env
      {| model_name := model_name self; file_counter := file_counter self + 1 |}
      r (Path.of_str task) = mret content
    ∧ (open_write env
         (Path.joinpath output_dir
            (Py.fmt_02d (file_counter self + 1) +:+ "_"
             +:+ Path.stem (pathlib_splitext env) (Path.of_str task)
             +:+ "_analysis.md"))
         content = Ok () →
       written (trace (collect env output_dir self task))
       = [(Path.joinpath output_dir
             (Py.fmt_02d (file_counter self + 1) +:+ "_"
              +:+ Path.stem (pathlib_splitext env) (Path.of_str task)
              +:+ "_analysis.md"),
           content)])
    ∧ (∀ e, open_write env
              (Path.joinpath output_dir
                 (Py.fmt_02d (file_counter self + 1) +:+ "_"
                  +:+ Path.stem (pathlib_splitext env) (Path.of_str task)
                  +:+ "_analysis.md"))
              content = Raise e →
         written (trace (collect env output_dir self task)) = [])
    ∧ ((∃ doc essay,
          docx_Document env (Path.of_str task) = Ok doc
          ∧ r !! "error" = None
          ∧ r !! "essay" = Some (RStr essay)
          ∧ r !! "content" = Some (RContent (content_of doc))
          ∧ content
            = "# Document Analysis for " +:+ Path.name (Path.of_str task)
              +:+ Py.NL +:+ Py.NL
              +:+ "**Analysis Date:** "
              +:+ time_strftime env (file_counter self + 1) +:+ Py.NL
              +:+ "**Word Count:** "
              +:+ Py.str_int (length (tokens (retained_paragraphs doc)))
              +:+ Py.NL
              +:+ "**Paragraph Count:** "
              +:+ Py.str_int (length (retained_paragraphs doc))
              +:+ Py.NL +:+ Py.NL
              +:+ "---" +:+ Py.NL +:+ Py.NL
              +:+ essay
              +:+ Py.NL +:+ Py.NL +:+ "---" +:+ Py.NL +:+ Py.NL
              +:+ "*Generated using Ollama model: " +:+ model_name self +:+ "*")
       ∨ (∃ msg,
          r !! "error" = Some (RStr msg)
          ∧ content
            = "# Error: " +:+ msg +:+ Py.NL +:+ Py.NL
              +:+ "File: " +:+ Path.of_str task +:+ Py.NL)).
Proof.
  intros Hr.
  destruct (report_of_returned env
              {| model_name := model_name self;
                 file_counter := file_counter self + 1 |}
              task (model_name self) r Hr)
    as [_ [(e & Hrec & _ & _ & Hmc) | (doc & essay & Hd & Hrec & _ & Hmc)]];
    cbn [model_name file_counter] in Hmc.
  - exists (error_block (exn_msg e) (Path.of_str task)).
    split; [exact Hmc |]. split; [|split].
    + intros Hw. rewrite (collect_writes _ _ _ _ r _ Hr Hmc Hw).
      by rewrite trace_pair, written_app, worker_writes_nothing.
    + intros e' Hw. rewrite (collect_write_raises _ _ _ _ r _ e' Hr Hmc Hw).
      apply worker_writes_nothing.
    + right. exists (exn_msg e). subst r. by rewrite error_record_error.
  - eexists. split; [exact Hmc |]. split; [|split].
    + intros Hw. rewrite (collect_writes _ _ _ _ r _ Hr Hmc Hw).
      by rewrite trace_pair, written_app, worker_writes_nothing.
    + intros e' Hw. rewrite (collect_write_raises _ _ _ _ r _ e' Hr Hmc Hw).
      apply worker_writes_nothing.
    + left. exists doc, essay. subst r.
      rewrite success_record_error, success_record_essay,
        success_record_content.
      repeat (split; [done |]). apply metadata_append.
Qed.

(** The report of a letter of four words in two paragraphs. *)
Lemma report_layout_witness :
  written (trace (collect
    (sample_env (Ok ()) (Ok letter) (Ok "An essay.") ["in/a.docx"] (Some 4))
    "out" (DocxAnalyzer_init "llama3.2") "in/a.docx"))
  = [("out/01_a_analysis.md",
      "# Document Analysis for a.docx" +:+ Py.NL +:+ Py.NL
      +:+ "**Analysis Date:** 2025-01-31 12:00:00" +:+ Py.NL
      +:+ "**Word Count:** 4" +:+ Py.NL
      +:+ "**Paragraph Count:** 2" +:+ Py.NL +:+ Py.NL
      +:+ "---" +:+ Py.NL +:+ Py.NL
      +:+ "An essay."
      +:+ Py.NL +:+ Py.NL +:+ "---" +:+ Py.NL +:+ Py.NL
      +:+ "*Generated using Ollama model: llama3.2*")].
Proof.
  destruct (report_layout
              (sample_env (Ok ()) (Ok letter) (Ok "An essay.") ["in/a.docx"] (Some 4))
              "out" (DocxAnalyzer_init "llama3.2") "in/a.docx"
              (success_record "in/a.docx" (content_of letter) "An essay."))
    as (content & _ & Hw & _
        & [(doc & essay & Hd & _ & He & _ & Hc) | (msg & He & _)]).
  - rewrite process_file_unfold.
    by rewrite (body_generated _ _ _ letter "An essay.").
  - rewrite Hw by reflexivity.
    injection Hd as <-. rewrite success_record_essay in He.
    injection He as <-. rewrite Hc. reflexivity.
  - rewrite success_record_error in He. discriminate.
Defined.

(** C10. The report of a record that a worker returned is an error report
    exactly when the record has an ['error'] key, and the record has that
    key exactly when the [try] block raised: a record of success has no
    such key, and its report is the header, the essay and the footer. In
    particular an empty answer of the generation service gives the normal
    report, with header, empty body and footer. The report is what the
    round writes when the file can be written. *)
Theorem error_report_iff_error_key env output_dir self task r :
  result (process_file env task (model_name self)) = Ok r →
  ∃ report,
    markdown_content env
      {| model_name := model_name self; file_counter := file_counter self + 1 |}
      r (Path.of_str task) = mret report
    ∧ (open_write env
         (Path.joinpath output_dir
            (Py.fmt_02d (file_counter self + 1) +:+ "_"
             +:+ Path.stem (pathlib_splitext env) (Path.of_str task)
             +:+ "_analysis.md"))
         report = Ok () →
       written (trace (collect env output_dir self task))
       = [(Path.joinpath output_dir
             (Py.fmt_02d (file_counter self + 1) +:+ "_"
              +:+ Path.stem (pathlib_splitext env) (Path.of_str task)
              +:+ "_analysis.md"),
           report)])
    ∧ (Py.startswith report "# Error: " = true ↔ is_Some (r !! "error"))
    ∧ (is_Some (r !! "error")
       ↔ ∃ e, result (process_file_body env task (model_name self)) = Raise e)
    ∧ (r !! "error" = None →
       ∃ doc essay,
         docx_Document env (Path.of_str task) = Ok doc
         ∧ r !! "essay" = Some (RStr essay)
         ∧ report
           = "# Document Analysis for " +:+ Path.name (Path.of_str task)
             +:+ Py.NL +:+ Py.NL
             +:+ "**Analysis Date:** "
             +:+ time_strftime env (file_counter self + 1) +:+ Py.NL
             +:+ "**Word Count:** "
             +:+ Py.str_int (length (tokens (retained_paragraphs doc)))
             +:+ Py.NL
             +:+ "**Paragraph Count:** "
             +:+ Py.str_int (length (retained_paragraphs doc))
             +:+ Py.NL +:+ Py.NL
             +:+ "---" +:+ Py.NL +:+ Py.NL
             +:+ essay
             +:+ Py.NL +:+ Py.NL +:+ "---" +:+ Py.NL +:+ Py.NL
             +:+ "*Generated using Ollama model: " +:+ model_name self +:+ "*")
    ∧ ∀ doc,
        ollama_Client env task = Ok () →
        docx_Document env (Path.of_str task) = Ok doc →
        paragraphs_text doc ≠ "" →
        client_generate env (model_name self)
          (prompt_text (Path.of_str task) doc) = Ok "" →
        r !! "error" = None
        ∧ r !! "essay" = Some (RStr "")
        ∧ report
          = "# Document Analysis for " +:+ Path.name (Path.of_str task)
            +:+ Py.NL +:+ Py.NL
            +:+ "**Analysis Date:** "
            +:+ time_strftime env (file_counter self + 1) +:+ Py.NL
            +:+ "**Word Count:** "
            +:+ Py.str_int (length (tokens (retained_paragraphs doc)))
            +:+ Py.NL
            +:+ "**Paragraph Count:** "
            +:+ Py.str_int (length (retained_paragraphs doc))
            +:+ Py.NL +:+ Py.NL
            +:+ "---" +:+ Py.NL +:+ Py.NL
            +:+ Py.NL +:+ Py.NL +:+ "---" +:+ Py.NL +:+ Py.NL
            +:+ "*Generated using Ollama model: " +:+ model_name self +:+ "*".
Proof.
  intros Hr.
  destruct (report_of_returned env
              {| model_name := model_name self;
                 file_counter := file_counter self + 1 |}
              task (model_name self) r Hr)
    as [_ [(e & Hrec & Hbody & _ & Hmc)
          | (doc & essay & Hd & Hrec & Hbody & Hmc)]];
    cbn [model_name file_counter] in Hmc.
  - exists (error_block (exn_msg e) (Path.of_str task)).
    split; [exact Hmc |]. split.
    { intros Hw. rewrite (collect_writes _ _ _ _ r _ Hr Hmc Hw).
      by rewrite trace_pair, written_app, worker_writes_nothing. }
    subst r. rewrite error_record_error, Hbody, error_block_is_error.
    split; [by split; [eexists | ] |].
    split; [by split; [exists e | eexists] |].
    split; [discriminate |].
    intros doc Hc Hd Ht Hg.
    rewrite (body_generated _ _ _ doc "") in Hbody by done. discriminate.
  - eexists. split; [exact Hmc |]. split.
    { intros Hw. rewrite (collect_writes _ _ _ _ r _ Hr Hmc Hw).
      by rewrite trace_pair, written_app, worker_writes_nothing. }
    subst r. rewrite success_record_error, success_record_essay, Hbody,
      header_not_error.
    split; [by split; [| intros [? ?]] |].
    split; [by split; [intros [? ?] | intros [? ?]] |].
    split.
    { intros _. exists doc, essay. split; [done |]. split; [done |].
      apply metadata_append. }
    intros doc' Hc Hd' Ht Hg.
    assert (doc' = doc) as -> by congruence.
    rewrite (body_generated _ _ _ doc "") in Hbody by done.
    unfold result in Hbody. cbn [snd] in Hbody. apply Ok_inj in Hbody.
    assert (essay = "") as ->.
    { apply (f_equal (λ m : gmap string rval, m !! "essay")) in Hbody.
      rewrite !success_record_essay in Hbody. congruence. }
    split; [done |]. split; [done |]. apply metadata_append.
Qed.

(** An empty answer of the generation service, on a document with text. *)
Lemma error_report_iff_error_key_witness :
  written (trace (collect (sample_env (Ok ()) (Ok letter) (Ok "") [] (Some 4))
                    "out" (DocxAnalyzer_init "llama3.2") "in/a.docx"))
  = [("out/01_a_analysis.md",
      "# Document Analysis for a.docx" +:+ Py.NL +:+ Py.NL
      +:+ "**Analysis Date:** 2025-01-31 12:00:00" +:+ Py.NL
      +:+ "**Word Count:** 4" +:+ Py.NL
      +:+ "**Paragraph Count:** 2" +:+ Py.NL +:+ Py.NL
      +:+ "---" +:+ Py.NL +:+ Py.NL
      +:+ Py.NL +:+ Py.NL +:+ "---" +:+ Py.NL +:+ Py.NL
      +:+ "*Generated using Ollama model: llama3.2*")].
Proof.
  destruct (error_report_iff_error_key
              (sample_env (Ok ()) (Ok letter) (Ok "") [] (Some 4))
              "out" (DocxAnalyzer_init "llama3.2") "in/a.docx"
              (success_record "in/a.docx" (content_of letter) ""))
    as (report & _ & Hw & _ & _ & _ & Hempty).
  - rewrite process_file_unfold.
    by rewrite (body_generated _ _ _ letter "").
  - destruct (Hempty letter) as (_ & _ & Hrep);
      [reflexivity | reflexivity | done | reflexivity |].
    rewrite Hw by reflexivity. rewrite Hrep. reflexivity.
Defined.

(** ** The orchestrator: the collecting loop *)

(** The loop over the tasks in the order of their completion. It collects
    a prefix of them: all of them when it comes to its end, fewer when a
    round is left by an exception. *)
Lemma collect_loop env output_dir tasks self :
  ∃ collected,
    collected `prefix_of` tasks
    ∧ (written (trace (for_each (collect env output_dir) tasks self))).*1
      = imap (λ i task, Path.joinpath output_dir
                (markdown_filename env (file_counter self + S i)
                   (Path.of_str task)))
          collected
    ∧ printed (trace (for_each (collect env output_dir) tasks self))
      = (λ task, "Processed " +:+ Path.name (Path.of_str task)) <$> collected
    ∧ made_dirs (trace (for_each (collect env output_dir) tasks self)) = []
    ∧ ∀ self', result (for_each (collect env output_dir) tasks self) = Ok self' →
        collected = tasks
        ∧ self' = {| model_name := model_name self;
                     file_counter := file_counter self + length tasks |}.
Proof.
  revert self. induction tasks as [|task tasks IH]; intros self.
  - exists []. do 4 (split; [done |]).
    intros s [= <-]. split; [done |].
    cbn [length]. rewrite Nat.add_0_r. by destruct self.
  - cbn [for_each].
    pose proof (worker_writes_nothing env task (model_name self)) as Hw.
    destruct (worker_quiet env task (model_name self)) as [Hq1 Hq2].
    destruct (collect_outcome env output_dir self task)
      as [[e ->] | (r & content & _ & _ & ->)].
    + exists []. split; [apply prefix_nil |].
      rewrite bind_raise, trace_pair, Hw, Hq1, Hq2. do 3 (split; [done |]).
      by intros s [=].
    + destruct (IH {| model_name := model_name self;
                      file_counter := file_counter self + 1 |})
        as (collected & Hpre & Hw2 & Hp2 & Hm2 & Hret).
      cbn [model_name file_counter] in *.
      exists (task :: collected). rewrite bind_ok, trace_pair.
      split; [by apply prefix_cons |].
      rewrite !written_app, !printed_app, !made_dirs_app, !fmap_app.
      rewrite Hw, Hq1, Hq2, Hw2, Hp2, Hm2.
      split; [|split; [done | split; [done |]]].
      * cbn [written omap app fmap list_fmap fst imap]. f_equal.
        apply imap_ext. intros i x _. cbn. do 2 f_equal. lia.
      * intros s Hres. destruct (Hret s Hres) as [-> ->].
        split; [done |]. cbn [length]. f_equal. lia.
Qed.

(** The loop comes to its end when the workers raise instances of
    [Exception] only and every report can be written. *)
Lemma collect_loop_returns env output_dir tasks self :
  (∀ task e, task ∈ tasks → step_fails env task (model_name self) e →
     is_Exception e = true) →
  (∀ path content, open_write env path content = Ok ()) →
  ∃ self', result (for_each (collect env output_dir) tasks self) = Ok self'.
Proof.
  intros Hsoft Hwrite. revert self Hsoft.
  induction tasks as [|task tasks IH]; intros self Hsoft; [by eexists |].
  cbn [for_each].
  destruct (process_file_returns env task (model_name self)) as [r Hr].
  { intros e. apply Hsoft. left. }
  destruct (report_exists env
              {| model_name := model_name self;
                 file_counter := file_counter self + 1 |}
              task (model_name self) r Hr) as [content Hmc].
  rewrite (collect_writes _ _ _ _ r content Hr Hmc (Hwrite _ _)), bind_ok.
  apply IH. intros task' e Hin. apply Hsoft. by right.
Qed.

(** ** The orchestrator: [analyze_directory] *)

(** No input file: one message, nothing else, and a normal return. *)
Lemma analyze_directory_no_files env self directory output_dir :
  find_docx_files env directory = [] →
  analyze_directory env self directory output_dir
  = ([EPrint ("No .docx files found in '" +:+ directory +:+ "'")], Ok self).
Proof.
  intros Hnone. unfold analyze_directory. rewrite Hnone.
  rewrite decide_True by done. reflexivity.
Qed.

(** The output directory cannot be made (its parent is missing, or a file
    has its name): the run stops at line 111 with the exception of
    [mkdir], before anything else happens. *)
Lemma analyze_directory_mkdir_raises env self directory output_dir e :
  find_docx_files env directory ≠ [] →
  path_mkdir env (resolved_output env directory output_dir) = Raise e →
  analyze_directory env self directory output_dir = ([], Raise e).
Proof.
  intros Hsome Hmk. unfold analyze_directory, mkdir.
  rewrite decide_False by done. by rewrite Hmk.
Qed.

(** Input files, but no detected parallelism: the run stops at line 113,
    after the directory is made and before any worker is started. *)
Lemma analyze_directory_undetermined env self directory output_dir :
  find_docx_files env directory ≠ [] →
  path_mkdir env (resolved_output env directory output_dir) = Ok () →
  os_cpu_count env = None →
  analyze_directory env self directory output_dir
  = ([EMkdir (resolved_output env directory output_dir)],
     Raise (Exn "TypeError"
       "'>=' not supported between instances of 'NoneType' and 'int'")).
Proof.
  intros Hsome Hmk Hcpu. unfold analyze_directory, mkdir.
  rewrite decide_False by done.
  rewrite Hmk, Hcpu, pool_setup_undetermined_raises_aux. reflexivity.
Qed.

(** Input files, the directory made and a detected parallelism: the pool
    is announced, the loop runs, and the closing line is printed when the
    loop comes to its end. *)
Lemma analyze_directory_loop env self directory output_dir c :
  find_docx_files env directory ≠ [] →
  path_mkdir env (resolved_output env directory output_dir) = Ok () →
  os_cpu_count env = Some c →
  analyze_directory env self directory output_dir
  = ([EMkdir (resolved_output env directory output_dir);
      EPrint ("Using " +:+ (if 4 <=? c then "multiprocessing" else "threading")
              +:+ " with " +:+ Py.str_int ((if c =? 0 then 2 else c) `min` 8)
              +:+ " workers...")]
     ++ trace (for_each (collect env (resolved_output env directory output_dir))
                 (as_completed env (find_docx_files env directory)) self)
     ++ match result (for_each
                        (collect env (resolved_output env directory output_dir))
                        (as_completed env (find_docx_files env directory)) self)
        with
        | Ok _ => [EPrint ("✓ Analysis complete! Markdown essays saved to: "
                           +:+ resolved_output env directory output_dir)]
        | Raise _ => []
        end,
     result (for_each (collect env (resolved_output env directory output_dir))
               (as_completed env (find_docx_files env directory)) self)).
Proof.
  intros Hsome Hmk Hcpu. unfold analyze_directory, mkdir.
  rewrite decide_False by done.
  rewrite Hmk, Hcpu, pool_setup_determined.
  destruct (for_each (collect env (resolved_output env directory output_dir))
              (as_completed env (find_docx_files env directory)) self)
    as [tr [s|e]]; [reflexivity |].
  unfold trace, result. cbn [fst snd]. by rewrite app_nil_r.
Qed.

(** The reports of a run, in all cases: those of the collected tasks, a
    prefix of the tasks in their order of completion, numbered from the
    counter of the analyzer on. *)
Lemma analyze_directory_collected env self directory output_dir :
  ∃ collected,
    collected `prefix_of` as_completed env (find_docx_files env directory)
    ∧ (written (trace (analyze_directory env self directory output_dir))).*1
      = imap (λ i task, Path.joinpath (resolved_output env directory output_dir)
                (markdown_filename env (file_counter self + S i)
                   (Path.of_str task)))
          collected
    ∧ (∀ self', result (analyze_directory env self directory output_dir)
                = Ok self' →
         collected = as_completed env (find_docx_files env directory)
         ∧ self' = {| model_name := model_name self;
                      file_counter := file_counter self
                        + length (find_docx_files env directory) |})
    ∧ (os_cpu_count env = None → collected = []).
Proof.
  destruct (decide (find_docx_files env directory = [])) as [Hnone|Hsome].
  { exists []. rewrite analyze_directory_no_files by done.
    pose proof (as_completed_perm env (find_docx_files env directory)) as Hp.
    rewrite Hnone in *. apply Permutation_nil_r in Hp as ->.
    do 2 (split; [done |]). split; [|done].
    intros s [= <-]. split; [done |].
    cbn [length]. rewrite Nat.add_0_r. by destruct self. }
  destruct (path_mkdir env (resolved_output env directory output_dir))
    as [[]|e] eqn:Hmk.
  2: { exists []. rewrite (analyze_directory_mkdir_raises _ _ _ _ e) by done.
       split; [apply prefix_nil |]. split; [done |].
       split; [by intros s [=] | done]. }
  destruct (os_cpu_count env) as [c|] eqn:Hcpu.
  2: { exists []. rewrite analyze_directory_undetermined by done.
       split; [apply prefix_nil |]. split; [done |].
       split; [by intros s [=] | done]. }
  rewrite (analyze_directory_loop _ _ _ _ c) by done.
  destruct (collect_loop env (resolved_output env directory output_dir)
              (as_completed env (find_docx_files env directory)) self)
    as (collected & Hpre & Hw & _ & _ & Hret).
  exists collected. split; [exact Hpre |].
  rewrite trace_pair. unfold result at 2. cbn [snd].
  split; [|split; [|done]].
  - rewrite !written_app, !fmap_app, Hw.
    assert (∀ o : outcome DocxAnalyzer,
      written match o with
        | Ok _ => [EPrint ("✓ Analysis complete! Markdown essays saved to: "
                           +:+ resolved_output env directory output_dir)]
        | Raise _ => []
        end = []) as -> by (by intros []).
    cbn [written omap app fmap list_fmap]. by rewrite app_nil_r.
  - intros s Hres. destruct (Hret s Hres) as [-> ->].
    split; [done |].
    by rewrite (Permutation_length (as_completed_perm env _)).
Qed.

(** A run with input files that meets no obstacle, event by event: the
    directory can be made, the parallelism is detected, the workers raise
    instances of [Exception] only and every report can be written. *)
Lemma analyze_directory_events env self directory output_dir c :
  find_docx_files env directory ≠ [] →
  path_mkdir env (resolved_output env directory output_dir) = Ok () →
  os_cpu_count env = Some c →
  (∀ task e, task ∈ find_docx_files env directory →
     step_fails env task (model_name self) e → is_Exception e = true) →
  (∀ path content, open_write env path content = Ok ()) →
  ∃ tr,
    analyze_directory env self directory output_dir
    = (tr, Ok {| model_name := model_name self;
                 file_counter := file_counter self
                   + length (find_docx_files env directory) |})
    ∧ (written tr).*1
      = imap (λ i task, Path.joinpath (resolved_output env directory output_dir)
                (markdown_filename env (file_counter self + S i)
                   (Path.of_str task)))
          (as_completed env (find_docx_files env directory))
    ∧ printed tr
      = ("Using " +:+ (if 4 <=? c then "multiprocessing" else "threading")
         +:+ " with " +:+ Py.str_int ((if c =? 0 then 2 else c) `min` 8)
         +:+ " workers...")
        :: ((λ task, "Processed " +:+ Path.name (Path.of_str task))
              <$> as_completed env (find_docx_files env directory))
        ++ ["✓ Analysis complete! Markdown essays saved to: "
            +:+ resolved_output env directory output_dir]
    ∧ made_dirs tr = [resolved_output env directory output_dir].
Proof.
  intros Hsome Hmk Hcpu Hsoft Hwrite.
  rewrite (analyze_directory_loop _ _ _ _ c) by done.
  destruct (collect_loop_returns env (resolved_output env directory output_dir)
              (as_completed env (find_docx_files env directory)) self)
    as [self' Hres]; [|done |].
  { intros task e Hin. apply Hsoft. by rewrite <-(as_completed_perm env _). }
  destruct (collect_loop env (resolved_output env directory output_dir)
              (as_completed env (find_docx_files env directory)) self)
    as (collected & _ & Hw & Hp & Hm & Hret).
  destruct (Hret self' Hres) as [-> ->]. rewrite Hres.
  rewrite (Permutation_length (as_completed_perm env _)).
  eexists. split; [reflexivity |]. split; [|split].
  - rewrite !written_app, !fmap_app, Hw.
    cbn [written omap app fmap list_fmap]. by rewrite app_nil_r.
  - rewrite !printed_app, Hp. reflexivity.
  - rewrite !made_dirs_app, Hm. reflexivity.
Qed.

(** *** Report paths are pairwise distinct *)

Lemma joinpath_inj d f1 f2 : Path.joinpath d f1 = Path.joinpath d f2 → f1 = f2.
Proof.
  unfold Path.joinpath. destruct (decide (d = ".")); [done |].
  destruct (Py.endswith d "/"); intros H.
  - by apply (inj (String.append d)) in H.
  - apply (inj (String.append d)) in H. by apply (inj (String.append "/")) in H.
Qed.

Lemma report_paths_NoDup env output_dir start (tasks : list string) :
  NoDup (imap (λ i task, Path.joinpath output_dir
                 (markdown_filename env (start + S i) (Path.of_str task))) tasks).
Proof.
  apply NoDup_alt. intros i j path.
  rewrite !list_lookup_imap.
  destruct (tasks !! i) as [ti|]; [|done].
  destruct (tasks !! j) as [tj|]; [|done].
  intros [= <-] [= H].
  apply joinpath_inj, markdown_filename_inj in H. lia.
Qed.

Lemma files_after_size (fs : gmap string string) (ws : list (string * string)) :
  NoDup ws.*1 →
  (∀ k, k ∈ ws.*1 → fs !! k = None) →
  size (foldl (λ fs w, <[w.1 := w.2]> fs) fs ws) = size fs + length ws.
Proof.
  revert fs. induction ws as [|[k v] ws IH]; intros fs Hnd Hfresh.
  - cbn. lia.
  - cbn [foldl fst snd length]. rewrite fmap_cons in *.
    apply NoDup_cons in Hnd as [Hk Hnd].
    rewrite IH.
    + rewrite map_size_insert_None; [lia |]. apply Hfresh. left.
    + done.
    + intros k' Hk'. rewrite lookup_insert_ne.
      * apply Hfresh. by right.
      * cbn. intros ->. done.
Qed.

(** A run that returns normally has written exactly one report per input
    file, into pairwise distinct paths. *)
Lemma analyze_directory_writes_all env self directory output_dir self' :
  result (analyze_directory env self directory output_dir) = Ok self' →
  length (written (trace (analyze_directory env self directory output_dir)))
  = length (find_docx_files env directory)
  ∧ NoDup (written (trace (analyze_directory env self directory output_dir))).*1
  ∧ size (files_after ∅ (trace (analyze_directory env self directory output_dir)))
    = length (find_docx_files env directory).
Proof.
  intros Hres.
  destruct (analyze_directory_collected env self directory output_dir)
    as (collected & _ & Hw & Hret & _).
  destruct (Hret self' Hres) as [-> _].
  assert (length (written (trace (analyze_directory env self directory
                                    output_dir)))
          = length (find_docx_files env directory)) as Hlen.
  { rewrite <-(length_fmap fst), Hw, length_imap.
    apply Permutation_length, as_completed_perm. }
  assert (NoDup (written (trace (analyze_directory env self directory
                                   output_dir))).*1) as Hnd.
  { rewrite Hw. apply report_paths_NoDup. }
  split; [done |]. split; [done |].
  unfold files_after.
  rewrite files_after_size, map_size_empty; [lia | done |].
  intros k _. apply lookup_empty.
Qed.

(** *** The counter in front of a report name *)

Lemma hd_push c l : List.hd "" (Py.push c l) = String c (List.hd "" l).
Proof. by destruct l. Qed.

Lemma counter_prefix_digits ds rest :
  Forall (λ d, d < 10) ds →
  counter_prefix (Py.string_of_digits ds +:+ "_" +:+ rest)
  = Py.string_of_digits ds.
Proof.
  unfold counter_prefix. induction 1 as [|d ds Hd _ IH]; [done |].
  cbn [Py.string_of_digits]. rewrite append_cons. cbn [Py.split_on].
  rewrite decide_False, hd_push, IH; [done |].
  do 10 (destruct d as [|d]; [done |]). lia.
Qed.

Lemma counter_prefix_zeros k s rest :
  counter_prefix (s +:+ "_" +:+ rest) = s →
  counter_prefix ((Py.zeros k +:+ s) +:+ "_" +:+ rest) = Py.zeros k +:+ s.
Proof.
  unfold counter_prefix. intros Hs. induction k as [|k IH]; [done |].
  cbn [Py.zeros].
  rewrite (append_cons _ (Py.zeros k) s), (append_cons _ (Py.zeros k +:+ s)).
  cbn [Py.split_on]. rewrite decide_False, hd_push, IH; done.
Qed.

Lemma counter_prefix_filename env counter file_path :
  counter_prefix (markdown_filename env counter file_path) = Py.fmt_02d counter.
Proof.
  unfold markdown_filename, Py.fmt_02d, Py.str_int.
  apply counter_prefix_zeros, counter_prefix_digits, digits_small.
Qed.

Lemma read_int_fmt_02d n : Py.read_int (Py.fmt_02d n) = n.
Proof.
  unfold Py.read_int, Py.fmt_02d, Py.str_int.
  rewrite read_zeros, <-(append_empty_r (Py.string_of_digits _)).
  rewrite read_digits by apply digits_small. by rewrite digits_value.
Qed.

(** C6, as it is worded, fails: with one hundred input files the report
    collected last carries the counter [100], three digits and not two. *)
Lemma hundredth_report_counter_has_three_digits :
  let run :=
    analyze_directory
      (sample_env (Ok ()) (Ok blank) (Ok "unused") hundred_files (Some 4))
      (DocxAnalyzer_init "llama3.2") "in" (Some "out") in
  length (written (trace run)) = 100
  ∧ last (written (trace run)).*1 = Some "out/100_f0_analysis.md"
  ∧ String.length (counter_prefix "100_f0_analysis.md") = 3.
Proof. by vm_compute. Qed.

(** C6, amended. In a run of a fresh analyzer the names of the reports are
    [{NN}_{stem}_analysis.md] for the collected tasks in their order of
    completion, whatever that order is; [NN] is the counter 1, 2, .., N of
    the report, without gap or repeat, written with at least two digits:
    zero-padded below 10, two digits up to 99 and more from 100 on. The
    collected tasks are the first N of the input files in their order of
    completion: all of them when the run returns normally, as it does when
    the output directory can be made, the parallelism is detected, the
    workers raise instances of [Exception] only and every report can be
    written; none when the parallelism is undetermined. *)
Theorem report_names_contiguous env directory output_dir model :
  ∃ collected,
    (written (trace (analyze_directory env (DocxAnalyzer_init model)
                       directory output_dir))).*1
    = imap (λ i task, Path.joinpath (resolved_output env directory output_dir)
              (Py.fmt_02d (S i) +:+ "_"
               +:+ Path.stem (pathlib_splitext env) (Path.of_str task)
               +:+ "_analysis.md"))
        collected
    ∧ collected `prefix_of` as_completed env (find_docx_files env directory)
    ∧ as_completed env (find_docx_files env directory)
      ≡ₚ find_docx_files env directory
    ∧ (∀ self', result (analyze_directory env (DocxAnalyzer_init model)
                          directory output_dir) = Ok self' →
         collected = as_completed env (find_docx_files env directory))
    ∧ (path_mkdir env (resolved_output env directory output_dir) = Ok () →
       is_Some (os_cpu_count env) →
       (∀ task e, task ∈ find_docx_files env directory →
          step_fails env task model e → is_Exception e = true) →
       (∀ path content, open_write env path content = Ok ()) →
       collected = as_completed env (find_docx_files env directory))
    ∧ (os_cpu_count env = None → collected = [])
    ∧ ∀ i task, collected !! i = Some task →
        let filename := markdown_filename env (S i) (Path.of_str task) in
        counter_prefix filename = Py.fmt_02d (S i)
        ∧ Py.read_int (counter_prefix filename) = S i
        ∧ 2 ≤ String.length (counter_prefix filename)
        ∧ (S i < 100 → String.length (counter_prefix filename) = 2).
Proof.
  destruct (analyze_directory_collected env (DocxAnalyzer_init model)
              directory output_dir) as (collected & Hpre & Hw & Hret & Hnone).
  exists collected.
  split; [exact Hw |]. split; [exact Hpre |].
  split; [apply as_completed_perm |].
  split; [intros self' Hres; by destruct (Hret self' Hres) |].
  split; [|split; [exact Hnone |]].
  - intros Hmk [c Hcpu] Hsoft Hwrite.
    destruct (decide (find_docx_files env directory = [])) as [Hfiles|Hfiles].
    + pose proof (as_completed_perm env (find_docx_files env directory)) as Hp.
      rewrite Hfiles in *. apply Permutation_nil_r in Hp. rewrite Hp in *.
      by apply prefix_nil_inv in Hpre.
    + destruct (analyze_directory_events env (DocxAnalyzer_init model)
                  directory output_dir c) as (tr & Hrun & _); [done.. |].
      eapply Hret. by rewrite Hrun.
  - intros i task _ filename. subst filename.
    rewrite counter_prefix_filename, read_int_fmt_02d.
    auto using length_fmt_02d_ge, length_fmt_02d_lt_100.
Qed.

(** Two files that complete in the reverse order of their submission. *)
Example report_names_two :
  (written (trace (analyze_directory
     (sample_env (Ok ()) (Ok letter) (Ok "An essay.")
        ["in/a.docx"; "in/sub/b.v2.docx"] (Some 4))
     (DocxAnalyzer_init "llama3.2") "in" (Some "out")))).*1
  = ["out/01_b.v2_analysis.md"; "out/02_a_analysis.md"].
Proof. by vm_compute. Qed.

(** ** The orchestrator: how many reports a run writes *)

(** C7. One input file and an undetermined parallelism: the run makes the
    output directory, then raises at line 113 and writes no report at all,
    where one report is due; [main] reports the error and exits with
    status 1. (A run that returns normally has written a report for every
    input file, [analyze_directory_writes_all]; without input files the run
    prints its message and does nothing else,
    [analyze_directory_no_files].) *)
Theorem undetermined_parallelism_writes_no_report :
  let env := sample_env (Ok ()) (Ok letter) (Ok "An essay.") ["in/a.docx"] None in
  let run := analyze_directory env (DocxAnalyzer_init "llama3.2") "in" (Some "out") in
  find_docx_files env "in" = ["in/a.docx"]
  ∧ run = ([EMkdir "out"],
           Raise (Exn "TypeError"
             "'>=' not supported between instances of 'NoneType' and 'int'"))
  ∧ written (trace run) = []
  ∧ main env "in" (Some "out") "llama3.2"
    = ([EMkdir "out";
        EPrint "Error during analysis: '>=' not supported between instances of 'NoneType' and 'int'"],
       Ok 1).
Proof. by vm_compute. Qed.

(** The same file with four detected cores. *)
Example one_file_four_cores :
  let env := sample_env (Ok ()) (Ok letter) (Ok "An essay.") ["in/a.docx"] (Some 4) in
  let run := main env "in" (Some "out") "llama3.2" in
  result run = Ok 0
  ∧ (written (trace run)).*1 = ["out/01_a_analysis.md"]
  ∧ size (files_after ∅ (trace run)) = 1.
Proof. by vm_compute. Qed.

(** No input file at all. *)
Example no_input_file :
  main (sample_env (Ok ()) (Ok letter) (Ok "An essay.") ["in/notes.txt"] None)
    "in" None "llama3.2"
  = ([EPrint "No .docx files found in 'in'"], Ok 0).
Proof. by vm_compute. Qed.

(** * Further properties of the code *)

(** ** What a worker calls *)

(** X1. A worker only talks to its three collaborators, in a fixed order:
    it constructs the client, then opens the document, then makes at most
    one generation call, with the model name it was given and the prompt of
    the parsed document. It makes that call exactly when the client was
    constructed, the document was parsed and has paragraph text; it never
    prints, writes a file or makes a directory. *)
Theorem worker_calls env p model :
  let tr := trace (process_file env p model) in
  (tr = [EClient p]
   ∨ tr = [EClient p; EDocument (Path.of_str p)]
   ∨ ∃ doc, docx_Document env (Path.of_str p) = Ok doc
       ∧ tr = [EClient p; EDocument (Path.of_str p);
               EGenerate model (prompt_text (Path.of_str p) doc)])
  ∧ length (generate_calls tr) ≤ 1
  ∧ (generate_calls tr ≠ []
     ↔ ollama_Client env p = Ok ()
       ∧ ∃ doc, docx_Document env (Path.of_str p) = Ok doc
           ∧ paragraphs_text doc ≠ "")
  ∧ written tr = [] ∧ printed tr = [] ∧ made_dirs tr = [].
Proof.
  intros tr. subst tr. rewrite worker_trace.
  destruct (body_path env p model) as [e Hc|e Hc Hd|doc Hc Hd Hb
    |doc e Hc Hd Ht Hg|doc essay Hc Hd Ht Hg]; unfold trace; cbn [fst].
  - split; [by left |]. split; [cbn; lia |]. split; [|done].
    split; [done |]. intros [Hc' _]. congruence.
  - split; [by right; left |]. split; [cbn; lia |]. split; [|done].
    split; [done |]. intros (_ & doc & Hd' & _). congruence.
  - split; [by right; left |]. split; [cbn; lia |]. split; [|done].
    split; [done |]. intros (_ & doc' & Hd' & Ht). congruence.
  - split; [right; right; by exists doc |]. split; [cbn; lia |].
    split; [|done]. split; [|done]. intros _. split; [done |]. by exists doc.
  - split; [right; right; by exists doc |]. split; [cbn; lia |].
    split; [|done]. split; [|done]. intros _. split; [done |]. by exists doc.
Qed.

(** ** The keys of a result record *)

(** X2. Every record a worker returns carries the input string unchanged
    under ['file_path'] and has the keys ['content'] and ['essay']; its set
    of keys is that of a success record or that of an error record, and the
    content of an error record is the empty dictionary while that of a
    success record has exactly the four keys of the extractor. A record is
    returned whenever the steps of the worker raise instances of
    [Exception] only. *)
Theorem record_keys env p model :
  (∀ r, result (process_file env p model) = Ok r →
     r !! "file_path" = Some (RStr p)
     ∧ ((dom r = {["file_path"; "content"; "essay"]}
         ∧ ∃ doc, r !! "content" = Some (RContent (content_of doc))
             ∧ dom (content_of doc)
               = {["paragraphs"; "tables"; "word_count"; "paragraph_count"]})
        ∨ (dom r = {["file_path"; "error"; "content"; "essay"]}
           ∧ r !! "content" = Some (RContent ∅))))
  ∧ ((∀ e, step_fails env p model e → is_Exception e = true) →
     ∃ r, result (process_file env p model) = Ok r).
Proof.
  split; [|apply process_file_returns].
  assert (∀ doc, dom (content_of doc)
    = {["paragraphs"; "tables"; "word_count"; "paragraph_count"]}) as Hdom.
  { intros doc. unfold content_of. rewrite !dom_insert_L, dom_empty_L.
    set_solver. }
  assert (∀ c essay, dom (success_record p c essay)
    = {["file_path"; "content"; "essay"]}) as Hs.
  { intros. unfold success_record. rewrite !dom_insert_L, dom_empty_L.
    set_solver. }
  assert (∀ e, dom (error_record p e)
    = {["file_path"; "error"; "content"; "essay"]}) as He.
  { intros. unfold error_record. rewrite !dom_insert_L, dom_empty_L.
    set_solver. }
  intros r [(e & -> & _) | (doc & essay & _ & -> & _)]%process_file_returned.
  - rewrite error_record_file_path, error_record_content. split; [done |].
    right. by rewrite He.
  - rewrite success_record_file_path, success_record_content.
    split; [done |]. left. rewrite Hs. split; [done |]. by exists doc.
Qed.

(** ** A failed step, in the report *)

(** X3. A failure of a step of the worker (constructing the client,
    opening the document, the generation call) with an instance [e] of
    [Exception] reaches the report of that file word for word: when the
    report can be written, it is ["# Error: " + str(e)], a blank line and
    ["File: " + path]. An exception outside [Exception] leaves the round
    instead, and nothing is written. When it is the client or the document
    that fails, no generation call is made. *)
Theorem failed_step_report env output_dir self task e :
  step_fails env task (model_name self) e →
  (is_Exception e = true →
   open_write env
     (Path.joinpath output_dir
        (Py.fmt_02d (file_counter self + 1) +:+ "_"
         +:+ Path.stem (pathlib_splitext env) (Path.of_str task)
         +:+ "_analysis.md"))
     ("# Error: " +:+ exn_msg e +:+ Py.NL +:+ Py.NL
      +:+ "File: " +:+ Path.of_str task +:+ Py.NL) = Ok () →
   written (trace (collect env output_dir self task))
   = [(Path.joinpath output_dir
         (Py.fmt_02d (file_counter self + 1) +:+ "_"
          +:+ Path.stem (pathlib_splitext env) (Path.of_str task)
          +:+ "_analysis.md"),
       "# Error: " +:+ exn_msg e +:+ Py.NL +:+ Py.NL
       +:+ "File: " +:+ Path.of_str task +:+ Py.NL)])
  ∧ (is_Exception e = false →
     result (collect env output_dir self task) = Raise e
     ∧ written (trace (collect env output_dir self task)) = [])
  ∧ (ollama_Client env task = Raise e
     ∨ docx_Document env (Path.of_str task) = Raise e →
     generate_calls (trace (collect env output_dir self task)) = []).
Proof.
  intros Hfail.
  pose proof (step_failure_raises _ _ _ _ Hfail) as Hraise.
  split; [|split].
  - intros He Hw.
    assert (result (process_file env task (model_name self))
            = Ok (error_record task e)) as Hr.
    { destruct (process_file_cases env task (model_name self))
        as [(e' & Hb & _ & Hpf) | [(e' & Hb & He' & _)
            | (doc & essay & _ & Hb & _)]];
        rewrite Hb in Hraise; simplify_eq; [done | congruence]. }
    rewrite (collect_writes _ _ _ _ _ _ Hr
               (markdown_content_error _ _ _ _ _) Hw).
    by rewrite trace_pair, written_app, worker_writes_nothing.
  - intros He.
    assert (result (process_file env task (model_name self)) = Raise e) as Hr.
    { destruct (process_file_cases env task (model_name self))
        as [(e' & Hb & He' & _) | [(e' & Hb & _ & Hpf)
            | (doc & essay & _ & Hb & _)]];
        rewrite Hb in Hraise; simplify_eq; [congruence | done]. }
    rewrite (collect_worker_raises _ _ _ _ e Hr).
    split; [done | apply worker_writes_nothing].
  - intros Hearly.
    assert (generate_calls (trace (process_file env task (model_name self)))
            = []) as Hquiet.
    { rewrite worker_trace.
      destruct (body_path env task (model_name self))
        as [e1 Hc|e1 Hc Hd|doc Hc Hd Hb|doc e1 Hc Hd Ht Hg
           |doc essay Hc Hd Ht Hg]; try done; destruct Hearly; congruence. }
    destruct (collect_outcome env output_dir self task)
      as [[e' ->] | (r & content & _ & _ & ->)]; rewrite trace_pair.
    + exact Hquiet.
    + by rewrite generate_calls_app, Hquiet.
Qed.

(** A document that python-docx rejects. *)
Lemma failed_step_report_witness :
  written (trace (collect
    (sample_env (Ok ()) (Raise bad_zip) (Ok "unused") ["in/a.docx"] (Some 4))
    "out" (DocxAnalyzer_init "llama3.2") "in/a.docx"))
  = [("out/01_a_analysis.md",
      "# Error: Package not found at 'in/a.docx'" +:+ Py.NL +:+ Py.NL
      +:+ "File: in/a.docx" +:+ Py.NL)].
Proof.
  destruct (failed_step_report
              (sample_env (Ok ()) (Raise bad_zip) (Ok "unused") ["in/a.docx"] (Some 4))
              "out" (DocxAnalyzer_init "llama3.2") "in/a.docx" bad_zip)
    as [Hw _].
  - right. left. split; reflexivity.
  - apply Hw; reflexivity.
Defined.

(** The generation call of the same file is interrupted: the round is
    left, and no report is written. *)
Example interrupted_round :
  collect (sample_env (Ok ()) (Ok letter) (Raise interrupt) ["in/a.docx"] (Some 4))
    "out" (DocxAnalyzer_init "llama3.2") "in/a.docx"
  = ([EClient "in/a.docx"; EDocument "in/a.docx";
      EGenerate "llama3.2" (prompt_text "in/a.docx" letter)],
     Raise interrupt).
Proof. by vm_compute. Qed.

(** ** Whole runs *)



(** The same three files when the second report cannot be written: the
    run stops there, with one report written. *)
Example batch_stops_at_failed_write :
  let env :=
    with_file_system
      (sample_env (Ok ()) (Ok letter) (Ok "An essay.")
         ["in/a.docx"; "in/b.docx"; "in/c.docx"] (Some 2))
      (λ _, Ok ())
      (λ path _, if decide (path = "out/02_b_analysis.md")
                 then Raise (Exn "OSError" "[Errno 28] No space left on device")
                 else Ok ())
      false in
  let run := analyze_directory env (DocxAnalyzer_init "llama3.2") "in" (Some "out") in
  result run = Raise (Exn "OSError" "[Errno 28] No space left on device")
  ∧ (written (trace run)).*1 = ["out/01_c_analysis.md"]
  ∧ printed (trace run)
    = ["Using threading with 2 workers..."; "Processed c.docx"].
Proof. by vm_compute. Qed.



(** X6. The counter belongs to the analyzer and is not reset by a run:
    after a run that returned normally, a second run of the same analyzer
    numbers its reports from where the first one stopped, that is from the
    counter of the first run plus the number of its input files. *)
Theorem counter_continues env self directory1 output1 directory2 output2
    tr1 self1 :
  analyze_directory env self directory1 output1 = (tr1, Ok self1) →
  file_counter self1
  = file_counter self + length (find_docx_files env directory1)
  ∧ model_name self1 = model_name self
  ∧ ∃ collected,
      collected `prefix_of` as_completed env (find_docx_files env directory2)
      ∧ (written (trace (analyze_directory env self1 directory2 output2))).*1
        = imap (λ i task,
                  Path.joinpath (resolved_output env directory2 output2)
                    (Py.fmt_02d
                       (file_counter self
                        + length (find_docx_files env directory1) + S i)
                     +:+ "_"
                     +:+ Path.stem (pathlib_splitext env) (Path.of_str task)
                     +:+ "_analysis.md"))
            collected
      ∧ ∀ self2,
          result (analyze_directory env self1 directory2 output2) = Ok self2 →
          collected = as_completed env (find_docx_files env directory2)
          ∧ file_counter self2
            = file_counter self + length (find_docx_files env directory1)
              + length (find_docx_files env directory2).
Proof.
  intros Hrun1.
  destruct (analyze_directory_collected env self directory1 output1)
    as (collected1 & _ & _ & Hret1 & _).
  destruct (Hret1 self1) as [_ ->]; [by rewrite Hrun1 |].
  cbn [file_counter model_name]. split; [done |]. split; [done |].
  destruct (analyze_directory_collected env
              {| model_name := model_name self;
                 file_counter := file_counter self
                   + length (find_docx_files env directory1) |}
              directory2 output2)
    as (collected & Hpre & Hw & Hret & _).
  cbn [file_counter model_name] in Hw, Hret.
  exists collected. split; [exact Hpre |]. split; [exact Hw |].
  intros self2 Hres. destruct (Hret self2 Hres) as [-> ->]. done.
Qed.

Lemma counter_continues_witness :
  (written (trace (analyze_directory
     (sample_env (Ok ()) (Ok letter) (Ok "An essay.")
        ["in/a.docx"; "in/b.docx"] (Some 4))
     {| model_name := "llama3.2"; file_counter := 2 |}
     "in" (Some "out")))).*1
  = ["out/03_b_analysis.md"; "out/04_a_analysis.md"].
Proof.
  destruct (counter_continues
              (sample_env (Ok ()) (Ok letter) (Ok "An essay.")
                 ["in/a.docx"; "in/b.docx"] (Some 4))
              (DocxAnalyzer_init "llama3.2") "in" (Some "out") "in" (Some "out")
              (trace (analyze_directory
                 (sample_env (Ok ()) (Ok letter) (Ok "An essay.")
                    ["in/a.docx"; "in/b.docx"] (Some 4))
                 (DocxAnalyzer_init "llama3.2") "in" (Some "out")))
              {| model_name := "llama3.2"; file_counter := 2 |})
    as (_ & _ & collected & _ & Hw & Hret); [by vm_compute |].
  destruct (Hret {| model_name := "llama3.2"; file_counter := 4 |})
    as [-> _]; [by vm_compute |].
  rewrite Hw. by vm_compute.
Defined.

(** X7. Without any target file the run does one thing: it prints the
    message naming the directory as it was given. It returns normally with
    the analyzer unchanged, whatever the parallelism, the output argument
    and the collaborators are; no directory is made, no file is written and
    no worker is started. *)
Theorem no_target_file_only_message env self directory output_dir :
  find_docx_files env directory = [] →
  analyze_directory env self directory output_dir
  = ([EPrint ("No .docx files found in '" +:+ directory +:+ "'")], Ok self)
  ∧ made_dirs (trace (analyze_directory env self directory output_dir)) = []
  ∧ written (trace (analyze_directory env self directory output_dir)) = []
  ∧ generate_calls (trace (analyze_directory env self directory output_dir)) = [].
Proof.
  intros Hnone. by rewrite analyze_directory_no_files.
Qed.

(** A directory that holds a lock file and a text file only, on a machine
    without detected parallelism. *)
Lemma no_target_file_only_message_witness :
  analyze_directory
    (sample_env (Raise boom) (Raise bad_zip) (Raise boom)
       ["in/~$a.docx"; "in/notes.txt"] None)
    (DocxAnalyzer_init "llama3.2") "in" None
  = ([EPrint "No .docx files found in 'in'"], Ok (DocxAnalyzer_init "llama3.2")).
Proof.
  apply (no_target_file_only_message
           (sample_env (Raise boom) (Raise bad_zip) (Raise boom)
              ["in/~$a.docx"; "in/notes.txt"] None)
           (DocxAnalyzer_init "llama3.2") "in" None).
  reflexivity.
Defined.

(** ** [main] *)

(** [main] for a directory that exists: what the two [except] clauses make
    of the analysis. *)
Lemma main_unfold env directory output model :
  os_path_exists env directory = true →
  main env directory output model
  = match analyze_directory env (DocxAnalyzer_init model) directory output with
    | (tr, Ok _) => (tr, Ok 0)
    | (tr, Raise e) =>
        if is_KeyboardInterrupt e then
          (tr ++ [EPrint (Py.NL +:+ "Analysis interrupted by user")], Ok 0)
        else if is_Exception e then
          (tr ++ [EPrint ("Error during analysis: " +:+ exn_msg e)], Ok 1)
        else (tr, Raise e)
    end.
Proof.
  intros Hex. unfold main. rewrite Hex. cbn [negb].
  destruct (analyze_directory env (DocxAnalyzer_init model) directory output)
    as [tr [s|e]]; unfold try_except_interrupt.
  - rewrite bind_ok. cbn. by rewrite app_nil_r.
  - rewrite bind_raise.
    by destruct (is_KeyboardInterrupt e), (is_Exception e).
Qed.

(** X8. The exit of [main]. For a missing directory the only effect is the
    error line, and the status is 1. Otherwise the status is 0 when the
    analysis returns and when it is interrupted (after the line
    ["Analysis interrupted by user"]), and 1 when the analysis raises an
    instance of [Exception], whose message is printed after
    ["Error during analysis: "]: so it is for an output directory that
    cannot be made and for an undetermined parallelism. Any other exception
    leaves [main]. A status is 0 or 1. *)
Theorem main_exit_status env directory output model :
  (os_path_exists env directory = false →
   main env directory output model
   = ([EPrint ("Error: Directory '" +:+ directory +:+ "' does not exist")],
      Ok 1))
  ∧ (os_path_exists env directory = true →
     (∀ tr self',
        analyze_directory env (DocxAnalyzer_init model) directory output
        = (tr, Ok self') →
        main env directory output model = (tr, Ok 0))
     ∧ (∀ tr e,
          analyze_directory env (DocxAnalyzer_init model) directory output
          = (tr, Raise e) →
          (is_KeyboardInterrupt e = true →
           main env directory output model
           = (tr ++ [EPrint (Py.NL +:+ "Analysis interrupted by user")], Ok 0))
          ∧ (is_KeyboardInterrupt e = false → is_Exception e = true →
             main env directory output model
             = (tr ++ [EPrint ("Error during analysis: " +:+ exn_msg e)],
                Ok 1))
          ∧ (is_KeyboardInterrupt e = false → is_Exception e = false →
             main env directory output model = (tr, Raise e)))
     ∧ (find_docx_files env directory = [] →
        main env directory output model
        = ([EPrint ("No .docx files found in '" +:+ directory +:+ "'")], Ok 0))
     ∧ (find_docx_files env directory ≠ [] →
        ∀ e, path_mkdir env (resolved_output env directory output) = Raise e →
             is_KeyboardInterrupt e = false → is_Exception e = true →
             main env directory output model
             = ([EPrint ("Error during analysis: " +:+ exn_msg e)], Ok 1))
     ∧ (find_docx_files env directory ≠ [] →
        path_mkdir env (resolved_output env directory output) = Ok () →
        os_cpu_count env = None →
        main env directory output model
        = ([EMkdir (resolved_output env directory output);
            EPrint ("Error during analysis: "
                    +:+ "'>=' not supported between instances of 'NoneType' and 'int'")],
           Ok 1)))
  ∧ (∀ status, result (main env directory output model) = Ok status →
       status = 0 ∨ status = 1)
  ∧ (∀ e, result (main env directory output model) = Raise e →
       is_KeyboardInterrupt e = false ∧ is_Exception e = false).
Proof.
  split; [|split; [|split]].
  - intros Hex. unfold main. by rewrite Hex.
  - intros Hex. rewrite main_unfold by done.
    split; [by intros tr s -> |].
    split.
    { intros tr e ->. split; [by intros -> |].
      split; [by intros -> -> | by intros -> ->]. }
    split; [intros Hnone; by rewrite analyze_directory_no_files |].
    split.
    + intros Hsome e Hmk Hki He.
      rewrite (analyze_directory_mkdir_raises _ _ _ _ e) by done.
      by rewrite Hki, He.
    + intros Hsome Hmk Hcpu. by rewrite analyze_directory_undetermined.
  - intros status. destruct (os_path_exists env directory) eqn:Hex.
    + rewrite main_unfold by done.
      destruct (analyze_directory env (DocxAnalyzer_init model) directory output)
        as [tr [s|e]]; [intros [= <-]; by left |].
      destruct (is_KeyboardInterrupt e); [intros [= <-]; by left |].
      destruct (is_Exception e); [intros [= <-]; by right | done].
    + unfold main. rewrite Hex. intros [= <-]. by right.
  - intros e. destruct (os_path_exists env directory) eqn:Hex.
    + rewrite main_unfold by done.
      destruct (analyze_directory env (DocxAnalyzer_init model) directory output)
        as [tr [s|e']]; [done |].
      destruct (is_KeyboardInterrupt e') eqn:Hki; [done |].
      destruct (is_Exception e') eqn:He; [done |]. by intros [= <-].
    + unfold main. by rewrite Hex.
Qed.

(** An output directory whose parent is missing: [mkdir] raises, and
    [main] exits with status 1. *)
Example main_missing_parent :
  main (with_file_system
          (sample_env (Ok ()) (Ok letter) (Ok "An essay.") ["in/a.docx"] (Some 4))
          (λ _, Raise no_parent) (λ _ _, Ok ()) false)
    "in" (Some "nope/out") "llama3.2"
  = ([EPrint "Error during analysis: [Errno 2] No such file or directory: 'nope/out'"],
     Ok 1).
Proof. by vm_compute. Qed.

(** A run interrupted during a generation call: the line of the first
    clause, and a normal exit. *)
Example main_interrupted :
  let run :=
    main (sample_env (Ok ()) (Ok letter) (Raise interrupt) ["in/a.docx"] (Some 4))
      "in" (Some "out") "llama3.2" in
  result run = Ok 0
  ∧ printed (trace run)
    = ["Using multiprocessing with 4 workers...";
       Py.NL +:+ "Analysis interrupted by user"]
  ∧ written (trace run) = [].
Proof. by vm_compute. Qed.

(** ** Where the reports go *)

Lemma files_after_dom fs tr :
  dom (files_after fs tr) = dom fs ∪ list_to_set (written tr).*1.
Proof.
  unfold files_after. revert fs.
  induction (written tr) as [|[k v] ws IH]; intros fs.
  - cbn. by rewrite (right_id_L ∅ (∪)).
  - cbn [foldl fst snd]. rewrite IH, dom_insert_L, fmap_cons.
    cbn [fst list_to_set].
    rewrite (comm_L (∪) {[k]} (dom fs)). by rewrite (assoc_L (∪)).
Qed.

(** X9. For two runs that return normally, of analyzers with the same
    counter, the paths of the reports depend on the listing of the
    directory, on the order of completion, on the output directory (with
    the place of the script, for the default one) and on the version of
    pathlib, and on nothing else: not on what the documents hold, on what
    the service answers, on failures of the workers, on the clock, on the
    number of cores or on the model. So the second run writes to the very
    same paths, and the directory of reports holds the same files after
    it. *)
Theorem same_input_same_paths env1 env2 self1 self2 directory output
    self1' self2' fs :
  rglob_all env1 (Path.of_str directory) = rglob_all env2 (Path.of_str directory) →
  as_completed env1 (find_docx_files env1 directory)
  = as_completed env2 (find_docx_files env1 directory) →
  script_root env1 = script_root env2 →
  pathlib_splitext env1 = pathlib_splitext env2 →
  file_counter self1 = file_counter self2 →
  result (analyze_directory env1 self1 directory output) = Ok self1' →
  result (analyze_directory env2 self2 directory output) = Ok self2' →
  (written (trace (analyze_directory env1 self1 directory output))).*1
  = (written (trace (analyze_directory env2 self2 directory output))).*1
  ∧ dom (files_after
           (files_after fs (trace (analyze_directory env1 self1 directory output)))
           (trace (analyze_directory env2 self2 directory output)))
    = dom (files_after fs (trace (analyze_directory env1 self1 directory output))).
Proof.
  intros Hls Hord Hroot Hsplit Hcounter Hres1 Hres2.
  assert (find_docx_files env1 directory = find_docx_files env2 directory)
    as Hfiles by (unfold find_docx_files; by rewrite Hls).
  assert (resolved_output env1 directory output
          = resolved_output env2 directory output) as Hout
    by (unfold resolved_output; by rewrite Hroot).
  assert ((written (trace (analyze_directory env1 self1 directory output))).*1
          = (written (trace (analyze_directory env2 self2 directory output))).*1)
    as Hsame.
  { destruct (analyze_directory_collected env1 self1 directory output)
      as (collected1 & _ & Hw1 & Hret1 & _).
    destruct (analyze_directory_collected env2 self2 directory output)
      as (collected2 & _ & Hw2 & Hret2 & _).
    destruct (Hret1 _ Hres1) as [-> _]. destruct (Hret2 _ Hres2) as [-> _].
    rewrite Hw1, Hw2. unfold markdown_filename.
    by rewrite Hout, <-Hfiles, Hord, Hsplit, Hcounter. }
  split; [exact Hsame |].
  rewrite !files_after_dom, Hsame.
  by rewrite <-(assoc_L (∪)), (idemp_L (∪)).
Qed.

(** The same two files, once readable and answered, once unreadable. *)
Lemma same_input_same_paths_witness :
  (written (trace (analyze_directory
     (sample_env (Ok ()) (Ok letter) (Ok "An essay.")
        ["in/a.docx"; "in/b.docx"] (Some 4))
     (DocxAnalyzer_init "llama3.2") "in" (Some "out")))).*1
  = (written (trace (analyze_directory
       (sample_env (Ok ()) (Raise bad_zip) (Raise boom)
          ["in/a.docx"; "in/b.docx"] (Some 2))
       (DocxAnalyzer_init "mistral") "in" (Some "out")))).*1.
Proof.
  apply (same_input_same_paths
           (sample_env (Ok ()) (Ok letter) (Ok "An essay.")
              ["in/a.docx"; "in/b.docx"] (Some 4))
           (sample_env (Ok ()) (Raise bad_zip) (Raise boom)
              ["in/a.docx"; "in/b.docx"] (Some 2))
           (DocxAnalyzer_init "llama3.2") (DocxAnalyzer_init "mistral")
           "in" (Some "out")
           {| model_name := "llama3.2"; file_counter := 2 |}
           {| model_name := "mistral"; file_counter := 2 |} ∅);
    by vm_compute.
Defined.

(** ** The pool *)

(** X10. Whenever the pool is set up, its size is between 1 and 8, so the
    executor is never asked for zero workers; processes are chosen exactly
    when at least 4 cores are detected, and then the pool has at least 4
    workers; a detected count of 0 gives 2 threads. *)
Theorem pool_size_bounds cpu_count tr use_multiprocessing max_workers :
  pool_setup cpu_count = (tr, Ok (use_multiprocessing, max_workers)) →
  1 ≤ max_workers ≤ 8
  ∧ (use_multiprocessing = true ↔ ∃ n, cpu_count = Some n ∧ 4 ≤ n)
  ∧ (use_multiprocessing = true → 4 ≤ max_workers)
  ∧ (cpu_count = Some 0 → use_multiprocessing = false ∧ max_workers = 2).
Proof.
  destruct cpu_count as [n|].
  2: { rewrite pool_setup_undetermined_raises_aux. discriminate. }
  rewrite pool_setup_determined. intros Hsetup.
  assert (use_multiprocessing = (4 <=? n)
          ∧ max_workers = (if n =? 0 then 2 else n) `min` 8) as [-> ->]
    by (unfold mret, M_ret in Hsetup; split; congruence).
  clear Hsetup.
  split; [destruct (n =? 0) eqn:H0; [lia | apply Nat.eqb_neq in H0; lia] |].
  split.
  { split.
    - intros H4%Nat.leb_le. by exists n.
    - intros (n' & [= <-] & H4). by apply Nat.leb_le. }
  split.
  { intros H4%Nat.leb_le. destruct (n =? 0) eqn:H0; [|lia].
    apply Nat.eqb_eq in H0. lia. }
  by intros [= ->].
Qed.

(** Sixteen detected cores: processes, and 8 of them. *)
Lemma pool_size_bounds_witness :
  pool_setup (Some 16) = ([], Ok (true, 8)) ∧ 1 ≤ 8 ≤ 8.
Proof.
  split; [reflexivity |].
  by destruct (pool_size_bounds (Some 16) [] true 8) as (Hb & _);
    [reflexivity |].
Defined.

(** ** Which files are taken *)

Lemma split_on_not_nil c s : Py.split_on c s ≠ [].
Proof.
  destruct s as [|a s]; [done |]. cbn [Py.split_on].
  destruct (decide (a = c)); [done |]. by destruct (Py.split_on c s).
Qed.

Lemma split_on_no_separator c f :
  Forall (λ a, a ≠ c) (chars f) → Py.split_on c f = [f].
Proof.
  induction f as [|a f IH]; [done |].
  cbn [chars Py.split_on]. intros [Ha Hf]%Forall_cons.
  rewrite decide_False by done. by rewrite IH.
Qed.

Lemma split_on_app c d f :
  Py.split_on c (d +:+ String c f) = Py.split_on c d ++ Py.split_on c f.
Proof.
  induction d as [|a d IH].
  - change ("" +:+ String c f) with (String c f). cbn [Py.split_on].
    by rewrite decide_True.
  - change (String a d +:+ String c f) with (String a (d +:+ String c f)).
    cbn [Py.split_on]. rewrite IH. destruct (decide (a = c)); [done |].
    apply push_app, split_on_not_nil.
Qed.

(** The name of an entry [dir/f]. *)
Lemma name_of_entry dir f :
  f ≠ "" → f ≠ "." → Forall (λ a, a ≠ "/"%char) (chars f) →
  Path.name (dir +:+ String "/" f) = f.
Proof.
  intros Hne Hdot Hf. unfold Path.name, Path.parts.
  rewrite split_on_app, (split_on_no_separator _ f) by done.
  rewrite filter_app, filter_cons_True, filter_nil by done.
  apply last_last.
Qed.

(** X11. [find_docx_files] returns exactly the entries of the recursive
    listing whose name ends in [.docx] and does not start with [~$], in the
    order of the listing and without adding or repeating any: a lock file
    such as [~$report.docx] is never analysed, and neither is a file whose
    extension is written in capitals. *)
Theorem find_docx_files_selects env directory :
  (∀ p, p ∈ find_docx_files env directory
        ↔ p ∈ rglob_all env (Path.of_str directory)
          ∧ Py.endswith (Path.name p) ".docx" = true
          ∧ Py.startswith (Path.name p) "~$" = false)
  ∧ find_docx_files env directory `sublist_of` rglob_all env (Path.of_str directory)
  ∧ (NoDup (rglob_all env (Path.of_str directory)) →
     NoDup (find_docx_files env directory))
  ∧ (∀ dir, (dir +:+ "/~$report.docx") ∉ find_docx_files env directory)
  ∧ (∀ dir, (dir +:+ "/REPORT.DOCX") ∉ find_docx_files env directory).
Proof.
  assert (∀ p, p ∈ find_docx_files env directory
        ↔ p ∈ rglob_all env (Path.of_str directory)
          ∧ Py.endswith (Path.name p) ".docx" = true
          ∧ Py.startswith (Path.name p) "~$" = false) as Hsel.
  { intros p. unfold find_docx_files. rewrite !list_elem_of_filter.
    destruct (Py.endswith (Path.name p) ".docx"),
      (Py.startswith (Path.name p) "~$"); cbn; split;
      intros H; decompose [and] H; try done; auto. }
  split; [exact Hsel |].
  split; [unfold find_docx_files; etrans; apply sublist_filter |].
  split; [intros Hnd; unfold find_docx_files; by do 2 apply NoDup_filter |].
  split; intros dir Hin%Hsel; destruct Hin as (_ & He & Hs).
  - rewrite (name_of_entry dir "~$report.docx") in Hs; [done.. |].
    cbn [chars]. by repeat constructor.
  - rewrite (name_of_entry dir "REPORT.DOCX") in He; [done.. |].
    cbn [chars]. by repeat constructor.
Qed.

(** ** The stem in the name of a report *)

Lemma endswith_app s p : Py.endswith s p = true → ∃ b, s = b +:+ p.
Proof.
  induction s as [|c s IH]; cbn [Py.endswith].
  - destruct p; [by exists "" | done].
  - destruct (decide (String c s = p)) as [<-|_]; [by exists "" |].
    intros [b ->]%IH. by exists (String c b).
Qed.

Lemma rfind_docx b : Py.rfind "." (b +:+ ".docx") = Some (String.length b).
Proof.
  induction b as [|c b IH]; [done |].
  change (String c b +:+ ".docx") with (String c (b +:+ ".docx")).
  cbn [Py.rfind String.length]. by rewrite IH.
Qed.

Lemma slice_to_app b s : Py.slice_to (String.length b) (b +:+ s) = b.
Proof.
  induction b as [|c b IH]; [by destruct s |].
  change (String c b +:+ s) with (String c (b +:+ s)).
  cbn [Py.slice_to String.length]. by rewrite IH.
Qed.

Lemma stem_legacy p b :
  Path.name p = b +:+ ".docx" →
  Path.stem false p = if decide (b = "") then ".docx" else b.
Proof.
  intros Hb. unfold Path.stem. rewrite Hb, rfind_docx, slice_to_app.
  rewrite length_append. cbn [String.length].
  destruct b as [|c b]; [done |]. rewrite decide_False by done.
  cbn [String.length].
  assert ((S (String.length b) <? S (String.length b) + 5 - 1) = true) as ->
    by (apply Nat.ltb_lt; lia).
  done.
Qed.

Lemma stem_splitext p b :
  Path.name p = b +:+ ".docx" →
  Path.stem true p = if Path.only_dots b then b +:+ ".docx" else b.
Proof.
  intros Hb. unfold Path.stem. by rewrite Hb, rfind_docx, slice_to_app.
Qed.

(** X12. For a file taken by the scan, named [<base>.docx], the stem is
    the base, whatever dots the base holds, so the report of
    [dir/report.v2.docx] is [NN_report.v2_analysis.md]: this holds under
    every version of pathlib when the base has a character other than a
    dot. The name [.docx] itself keeps its extension under every version.
    A base made of dots only is the stem up to Python 3.13 ([..docx] has
    the stem [.]), and from Python 3.14 on such a name is its own stem.
    The stem is never empty. *)
Theorem stem_strips_docx splitext p b :
  Path.name p = b +:+ ".docx" →
  (Path.only_dots b = false → Path.stem splitext p = b)
  ∧ (b = "" → Path.stem splitext p = ".docx")
  ∧ (b ≠ "" → Path.stem false p = b)
  ∧ (Path.only_dots b = true → Path.stem true p = b +:+ ".docx")
  ∧ Path.stem splitext p ≠ "".
Proof.
  intros Hb.
  pose proof (stem_legacy p b Hb) as Hl.
  pose proof (stem_splitext p b Hb) as Hm.
  split; [|split; [|split; [|split]]].
  - intros Hdots. destruct splitext; [by rewrite Hm, Hdots |].
    rewrite Hl, decide_False; [done |]. by intros ->.
  - intros ->. by destruct splitext; [rewrite Hm | rewrite Hl].
  - intros Hne. by rewrite Hl, decide_False.
  - intros Hdots. by rewrite Hm, Hdots.
  - destruct splitext.
    + rewrite Hm. destruct (Path.only_dots b) eqn:Hdots; by destruct b.
    + rewrite Hl. by destruct (decide (b = "")).
Qed.

Lemma stem_strips_docx_witness :
  Path.stem true "in/sub/report.v2.docx" = "report.v2"
  ∧ Path.stem false "in/sub/report.v2.docx" = "report.v2".
Proof.
  split.
  - by destruct (stem_strips_docx true "in/sub/report.v2.docx" "report.v2")
      as [Hs _]; [reflexivity | apply Hs].
  - by destruct (stem_strips_docx false "in/sub/report.v2.docx" "report.v2")
      as [Hs _]; [reflexivity | apply Hs].
Defined.
(** ** Documents without readable text *)

Lemma split_nil_iff s : Py.split s = [] ↔ blank_text s.
Proof.
  unfold blank_text. split; [|apply split_whitespace_only].
  induction s as [|c s IH]; [done |].
  rewrite split_cons. cbn [whitespace_only].
  destruct (Py.isspace c); [by cbn |].
  destruct (Py.starts_word s); [|done]. by destruct (Py.split s).
Qed.

Lemma stripped_non_empty_nil l :
  stripped_non_empty l = [] ↔ Forall blank_text l.
Proof.
  unfold stripped_non_empty, blank_text.
  induction l as [|x l IH]; [done |].
  rewrite filter_cons, strip_truthy, Forall_cons.
  destruct (whitespace_only x); cbn.
  - rewrite IH. by split; [|intros [_ ?]].
  - split; [done | by intros [? _]].
Qed.

Lemma stripped_non_empty_texts l : Forall (λ s, s ≠ "") (stripped_non_empty l).
Proof.
  unfold stripped_non_empty. induction l as [|x l IH]; [constructor |].
  rewrite filter_cons.
  destruct (decide (Py.truthy (Py.strip x))) as [Hx|Hx]; [|done].
  rewrite fmap_cons. constructor; [|done].
  intros Heq. by rewrite Heq in Hx.
Qed.

Lemma join_not_empty sep l :
  l ≠ [] → Forall (λ s, s ≠ "") l → Py.join sep l ≠ "".
Proof.
  destruct l as [|x l]; [done |]. intros _ [Hx _]%Forall_cons.
  destruct x as [|c x]; [done |]. by destruct l.
Qed.

Lemma tokens_nil_iff l : tokens l = [] ↔ Forall blank_text l.
Proof.
  unfold tokens. induction l as [|x l IH]; [done |].
  rewrite bind_cons, Forall_cons, <-IH, <-split_nil_iff.
  split; [by intros [? ?]%app_eq_nil | by intros [-> ->]].
Qed.

(** X13. The document gets the placeholder essay, rather than a generation
    call, exactly when every paragraph of it is blank (empty or whitespace
    only); these are exactly the documents with a word count of 0, and
    exactly those with a paragraph count of 0. *)
Theorem blank_document_iff doc :
  (paragraphs_text doc = "" ↔ Forall blank_text (doc_paragraphs doc))
  ∧ (content_of doc !! "word_count" = Some (CInt 0)
     ↔ Forall blank_text (doc_paragraphs doc))
  ∧ (content_of doc !! "paragraph_count" = Some (CInt 0)
     ↔ Forall blank_text (doc_paragraphs doc)).
Proof.
  split; [|split].
  - unfold paragraphs_text. rewrite <-stripped_non_empty_nil. split.
    + intros Hj. destruct (decide (stripped_non_empty (doc_paragraphs doc) = []))
        as [|Hne]; [done |].
      by destruct (join_not_empty (Py.NL +:+ Py.NL) _ Hne
                     (stripped_non_empty_texts _)).
    + by intros ->.
  - rewrite word_count_tokens, tokens_retained, <-tokens_nil_iff. split.
    + intros [= H0]. by apply nil_length_inv.
    + by intros ->.
  - rewrite content_paragraph_count, <-stripped_non_empty_nil. split.
    + intros [= H0]. by apply nil_length_inv.
    + by intros ->.
Qed.

(** ** Tables *)

Lemma content_tables_text doc :
  content_of doc !! "tables"
  = Some (CStr (if decide (tables_content (doc_tables doc) = []) then ""
                else Py.join (Py.NL +:+ Py.NL) (tables_content (doc_tables doc)))).
Proof. unfold content_of. by rewrite lookup_insert_ne, lookup_insert_eq by done. Qed.

Lemma table_text_nil table :
  table_text table = [] ↔ Forall (Forall blank_text) table.
Proof.
  unfold table_text. induction table as [|row table IH]; [done |].
  rewrite filter_cons, Forall_cons, <-stripped_non_empty_nil.
  destruct (decide (stripped_non_empty row ≠ [])) as [Hrow|Hrow].
  - split; [done | by intros [? _]].
  - apply dec_stable in Hrow. rewrite IH. by split; [|intros [_ ?]].
Qed.

Lemma table_text_rows table : Forall (λ s, s ≠ "") (table_text table).
Proof.
  unfold table_text. induction table as [|row table IH]; [constructor |].
  rewrite filter_cons.
  destruct (decide (stripped_non_empty row ≠ [])) as [Hrow|Hrow]; [|done].
  rewrite fmap_cons. constructor; [|done].
  by apply join_not_empty, stripped_non_empty_texts.
Qed.

Lemma tables_content_nil tables :
  tables_content tables = [] ↔ Forall (Forall (Forall blank_text)) tables.
Proof.
  unfold tables_content. induction tables as [|t tables IH]; [done |].
  rewrite filter_cons, Forall_cons, <-table_text_nil.
  destruct (decide (table_text t ≠ [])) as [Ht|Ht].
  - split; [done | by intros [? _]].
  - apply dec_stable in Ht. rewrite IH. by split; [|intros [_ ?]].
Qed.

Lemma tables_content_texts tables : Forall (λ s, s ≠ "") (tables_content tables).
Proof.
  unfold tables_content. induction tables as [|t tables IH]; [constructor |].
  rewrite filter_cons.
  destruct (decide (table_text t ≠ [])) as [Ht|Ht]; [|done].
  rewrite fmap_cons. constructor; [|done].
  by apply join_not_empty, table_text_rows.
Qed.

(** X14. The table text of a document is empty, and the prompt then has no
    tables section, exactly when every cell of every table is blank: blank
    cells, rows of blank cells and tables of such rows leave no trace, and
    any other cell makes the text non-empty. *)
Theorem tables_text_empty_iff doc :
  content_of doc !! "tables" = Some (CStr "")
  ↔ Forall (Forall (Forall blank_text)) (doc_tables doc).
Proof.
  rewrite content_tables_text, <-tables_content_nil.
  destruct (decide (tables_content (doc_tables doc) = [])) as [Hnil|Hne].
  - done.
  - split; [|done]. intros [= Hj].
    by destruct (join_not_empty (Py.NL +:+ Py.NL) _ Hne
                   (tables_content_texts _)).
Qed.

Example tables_letter :
  content_of letter !! "tables" = Some (CStr "a | b").
Proof. reflexivity. Qed.

(** ** The name of the default output directory *)

Lemma slug_char_lower c :
  Py.is_alnum (Py.lower_char c) = true → slug_char (Py.lower_char c) = true.
Proof. destruct c as [[] [] [] [] [] [] [] []]; by vm_compute. Qed.

Lemma sub_non_alnum_chars in_run s :
  Forall (λ c, slug_char c = true) (chars (Py.sub_non_alnum in_run (Py.lower s))).
Proof.
  revert in_run. induction s as [|c s IH]; intros in_run; [constructor |].
  cbn [Py.lower Py.sub_non_alnum].
  destruct (Py.is_alnum (Py.lower_char c)) eqn:Hc.
  - cbn [chars]. constructor; [by apply slug_char_lower | apply IH].
  - destruct in_run; [apply IH |]. cbn [chars]. constructor; [done | apply IH].
Qed.

(** X15. The slug that names the default output directory holds only
    digits, lower-case ASCII letters and underscores, whatever the name of
    the input directory is; the directory is [<slug>_essays] next to the
    script, and an output directory given on the command line is used as
    it is, normalised. *)
Theorem folder_slug_chars env directory :
  Forall (λ c, slug_char c = true) (chars (folder_slug directory))
  ∧ resolved_output env directory None
    = Path.joinpath (script_root env) (folder_slug directory +:+ "_essays")
  ∧ ∀ d, resolved_output env directory (Some d) = Path.of_str d.
Proof.
  split; [apply sub_non_alnum_chars | by split].
Qed.

(** ** Files do not influence each other *)

Lemma bind_ext {A B} (m : M A) (k1 k2 : A → M B) :
  (∀ a, k1 a = k2 a) → (m ≫= k1) = (m ≫= k2).
Proof.
  intros Hk. destruct m as [tr [a|e]]; unfold mbind, M_bind; [|done].
  by rewrite Hk.
Qed.

Lemma markdown_content_clock env1 env2 self r file_path :
  time_strftime env1 (file_counter self) = time_strftime env2 (file_counter self) →
  markdown_content env1 self r file_path = markdown_content env2 self r file_path.
Proof. intros Ht. unfold markdown_content. by rewrite Ht. Qed.

(** X16. What a round of the loop does for a file depends on the
    collaborators only through that file: two environments that agree on
    the client of the file, on its document, on the answers of the service
    for the model, on the clock at this report, on the version of pathlib
    and on whether the report of the file can be written give the same
    record, the same calls and the same report, whatever they hold for
    other files (other documents, the listing, the parallelism, the order
    of completion, other reports). *)
Theorem per_file_isolation env1 env2 output_dir self task :
  ollama_Client env1 task = ollama_Client env2 task →
  docx_Document env1 (Path.of_str task) = docx_Document env2 (Path.of_str task) →
  (∀ prompt, client_generate env1 (model_name self) prompt
             = client_generate env2 (model_name self) prompt) →
  time_strftime env1 (file_counter self + 1)
  = time_strftime env2 (file_counter self + 1) →
  pathlib_splitext env1 = pathlib_splitext env2 →
  (∀ content,
     open_write env1
       (Path.joinpath output_dir
          (Py.fmt_02d (file_counter self + 1) +:+ "_"
           +:+ Path.stem (pathlib_splitext env1) (Path.of_str task)
           +:+ "_analysis.md"))
       content
     = open_write env2
         (Path.joinpath output_dir
            (Py.fmt_02d (file_counter self + 1) +:+ "_"
             +:+ Path.stem (pathlib_splitext env1) (Path.of_str task)
             +:+ "_analysis.md"))
         content) →
  process_file env1 task (model_name self) = process_file env2 task (model_name self)
  ∧ collect env1 output_dir self task = collect env2 output_dir self task.
Proof.
  intros Hc Hd Hg Ht Hsplit Hwrite.
  assert (process_file env1 task (model_name self)
          = process_file env2 task (model_name self)) as Hpf.
  { unfold process_file. f_equal. unfold process_file_body.
    rewrite Hc, Hd. apply bind_ext. intros _. apply bind_ext. intros doc.
    apply bind_ext. intros paragraphs. f_equal.
    destruct (negb (cval_truthy paragraphs)); [done |].
    apply bind_ext. intros prompt. by rewrite Hg. }
  split; [exact Hpf |].
  destruct (result (process_file env1 task (model_name self))) as [r|e] eqn:Hr1.
  2: { rewrite (collect_worker_raises env1 _ _ _ e) by done.
       rewrite (collect_worker_raises env2 _ _ _ e) by (by rewrite <-Hpf).
       by rewrite Hpf. }
  assert (result (process_file env2 task (model_name self)) = Ok r) as Hr2
    by (by rewrite <-Hpf).
  destruct (report_exists env1
              {| model_name := model_name self;
                 file_counter := file_counter self + 1 |}
              task (model_name self) r Hr1) as [content Hmc1].
  assert (markdown_content env2
            {| model_name := model_name self;
               file_counter := file_counter self + 1 |}
            r (Path.of_str task) = mret content) as Hmc2.
  { rewrite <-Hmc1. symmetry. by apply markdown_content_clock. }
  specialize (Hwrite content).
  destruct (open_write env1
              (Path.joinpath output_dir
                 (Py.fmt_02d (file_counter self + 1) +:+ "_"
                  +:+ Path.stem (pathlib_splitext env1) (Path.of_str task)
                  +:+ "_analysis.md")) content) as [[]|e] eqn:Hw1.
  - rewrite (collect_writes env1 _ _ _ r content) by done.
    rewrite (collect_writes env2 _ _ _ r content);
      [| done | done | unfold markdown_filename; by rewrite <-Hsplit].
    unfold markdown_filename. by rewrite Hpf, Hsplit.
  - rewrite (collect_write_raises env1 _ _ _ r content e) by done.
    rewrite (collect_write_raises env2 _ _ _ r content e);
      [| done | done | unfold markdown_filename; by rewrite <-Hsplit].
    by rewrite Hpf.
Qed.

(** The file [in/a.docx] next to an unreadable one, and alone among
    readable ones. *)
Lemma per_file_isolation_witness :
  collect mixed_env "out" (DocxAnalyzer_init "llama3.2") "in/a.docx"
  = collect (sample_env (Ok ()) (Ok letter) (Ok "An essay.") ["in/a.docx"] (Some 2))
      "out" (DocxAnalyzer_init "llama3.2") "in/a.docx".
Proof.
  apply (per_file_isolation mixed_env
           (sample_env (Ok ()) (Ok letter) (Ok "An essay.") ["in/a.docx"] (Some 2))
           "out" (DocxAnalyzer_init "llama3.2") "in/a.docx");
    reflexivity.
Defined.

(** One unreadable file among readable ones: the batch goes on, every file
    gets its report, and only the report of the unreadable file is an
    error report. *)
Example one_bad_file :
  let run := main mixed_env "in" (Some "out") "llama3.2" in
  result run = Ok 0
  ∧ (λ w, (w.1, Py.startswith w.2 "# Error: ")) <$> written (trace run)
    = [("out/01_a_analysis.md", false); ("out/02_bad_analysis.md", true)].
Proof. by vm_compute. Qed.

(** ** What goes into the prompt *)

Lemma join_cons sep x y l :
  Py.join sep (x :: y :: l) = x +:+ sep +:+ Py.join sep (y :: l).
Proof. reflexivity. Qed.

Lemma join_middle sep l1 x l2 :
  l1 ≠ [] → l2 ≠ [] →
  Py.join sep (l1 ++ x :: l2)
  = (Py.join sep l1 +:+ sep) +:+ x +:+ sep +:+ Py.join sep l2.
Proof.
  intros Hl1 Hl2. induction l1 as [|a [|b l1] IH]; [done | |].
  - destruct l2 as [|y l2]; [done |]. cbn [app]. rewrite !join_cons.
    change (Py.join sep [a]) with a. by rewrite append_assoc.
  - cbn [app] in *. rewrite join_cons, IH by done.
    by rewrite join_cons, !append_assoc.
Qed.

Lemma length_slice_to n s :
  String.length (Py.slice_to n s) = String.length s `min` n.
Proof.
  revert s. induction n as [|n IH]; intros [|c s]; cbn; [done.. |].
  by rewrite IH.
Qed.

Lemma slice_to_prefix n s : ∃ rest, s = Py.slice_to n s +:+ rest.
Proof.
  revert s. induction n as [|n IH]; intros s.
  - exists s. by destruct s.
  - destruct s as [|c s]; [by exists "" |].
    destruct (IH s) as [rest Hrest]. exists rest.
    cbn [Py.slice_to]. rewrite append_cons. by f_equal.
Qed.

Lemma slice_to_all n s : String.length s ≤ n → Py.slice_to n s = s.
Proof.
  revert s. induction n as [|n IH]; intros [|c s]; cbn; try done; [lia |].
  intros Hlen. rewrite IH; [done | lia].
Qed.

(** X17. Of the paragraph text the prompt holds the first 500 characters
    and no more: the preview is a prefix of the text, of length
    [min(len(text), 500)], the whole text when that is not longer than 500
    characters, and it is followed by ["..."] whether or not something was
    cut. *)
Theorem prompt_preview file_path doc :
  ∃ before after,
    prompt_text file_path doc
    = before +:+ Py.slice_to 500 (paragraphs_text doc) +:+ "..." +:+ after
    ∧ String.length (Py.slice_to 500 (paragraphs_text doc))
      = String.length (paragraphs_text doc) `min` 500
    ∧ (∃ rest, paragraphs_text doc
               = Py.slice_to 500 (paragraphs_text doc) +:+ rest)
    ∧ (String.length (paragraphs_text doc) ≤ 500 →
       Py.slice_to 500 (paragraphs_text doc) = paragraphs_text doc).
Proof.
  destruct (content_tables doc) as [t Ht].
  assert (∃ l1 l2, l1 ≠ [] ∧ l2 ≠ [] ∧
    prompt file_path (content_of doc)
    = mret (Py.join Py.NL
              (l1 ++ (Py.slice_to 500 (paragraphs_text doc) +:+ "...") :: l2)))
    as (l1 & l2 & Hl1 & Hl2 & Hprompt).
  { unfold prompt, getitem.
    rewrite content_word_count, content_paragraph_count, content_paragraphs, Ht.
    rewrite !mret_bind. unfold cval_slice_to. rewrite !mret_bind.
    eexists (_ :: _ :: _ :: _ :: _ :: _ :: _ :: _ :: _ :: _ :: _ :: _ :: _
             :: _ :: _ :: _ :: _ :: _ :: _ :: _ :: _ :: _ :: _ :: _ :: _
             :: _ :: [_]), [_; _; _].
    split; [done |]. split; [done |]. reflexivity. }
  eexists _, _. split; [|split; [|split]].
  - unfold prompt_text. rewrite Hprompt. cbn [mret M_ret].
    rewrite join_middle by done.
    rewrite (append_assoc (Py.slice_to 500 (paragraphs_text doc)) "...").
    reflexivity.
  - apply length_slice_to.
  - apply slice_to_prefix.
  - apply slice_to_all.
Qed.
